(** * The two how-to notebooks: hybrid search and structured output parsing

    The repository consists of two notebooks,
    [docs/docs/how_to/hybrid.ipynb] and
    [docs/docs/how_to/output_parser_structured.ipynb].  Their code cells are
    transcribed below twice over:

    - as syntax ([PyAst], [StructuredSrc], [HybridSrc]): the statements of
      every code cell, in cell order, in a subset of Python's [ast];
    - as functions ([Structured], [Hybrid]): the one function the notebooks
      define, the [Joke] pre-validator, over Python values, together with
      the literal inputs and the outputs the notebooks record.

    An interpreter for the fragment the validator is written in connects the
    two: running the transcribed [FunctionDef] agrees with the function. *)

From Stdlib Require Import String Ascii List ZArith Bool Lia Permutation.
From Stdlib Require Import Floats.SpecFloat.
Import ListNotations.
Set Warnings "-register-all".
Local Open Scope string_scope.
Local Open Scope list_scope.

(** ** Python values and exceptions *)

Module Py.

(** The values a parsed model output can hold: what [json.loads] produces,
    which is what the parser hands to the schema. *)
Inductive pyval : Type :=
| PNone
| PBool (b : bool)
| PInt (z : Z)
| PFloat (f : spec_float)
| PStr (s : string)
| PList (elts : list pyval)
| PDict (items : list (string * pyval)).

(** A [dict] with [str] keys, in insertion order. *)
Definition dict : Type := list (string * pyval).

Inductive field_error : Type :=
| Missing       (* "Field required" *)
| StringType.   (* "Input should be a valid string" *)

Inductive exn : Type :=
| ValueError (msg : string)
| TypeError (msg : string)
| IndexError (msg : string)
| KeyError (key : Z)
| ValidationError (field : string) (err : field_error).

Inductive result (A : Type) : Type :=
| Ok (a : A)
| Raise (e : exn).
Arguments Ok {A} a.
Arguments Raise {A} e.

Definition ret {A} (a : A) : result A := Ok a.

Definition bind {A B} (m : result A) (k : A -> result B) : result B :=
  match m with
  | Ok a => k a
  | Raise e => Raise e
  end.

Declare Scope py_scope.
Delimit Scope py_scope with py.
Notation "x <- m ;; k" := (bind m (fun x => k))
  (at level 61, m at next level, right associativity) : py_scope.

(** [d.get(k)] as an option, and with Python's default [None]. *)
Fixpoint dict_lookup (d : dict) (k : string) : option pyval :=
  match d with
  | [] => None
  | (k', v) :: d' => if String.eqb k' k then Some v else dict_lookup d' k
  end.

Definition dict_get (d : dict) (k : string) : pyval :=
  match dict_lookup d k with
  | Some v => v
  | None => PNone
  end.

(** [bool(v)]. *)
Definition truthy (v : pyval) : bool :=
  match v with
  | PNone => false
  | PBool b => b
  | PInt z => negb (Z.eqb z 0)
  | PFloat f => match f with S754_zero _ => false | _ => true end
  | PStr s => negb (String.eqb s "")
  | PList elts => match elts with [] => false | _ :: _ => true end
  | PDict items => match items with [] => false | _ :: _ => true end
  end.

(** Indexing a sequence with a possibly negative index. *)
Definition seq_index {A} (l : list A) (i : Z) : option A :=
  let n := Z.of_nat (List.length l) in
  let j := if Z.ltb i 0 then Z.add i n else i in
  if Z.ltb j 0 || Z.leb n j then None else nth_error l (Z.to_nat j).

(** [v[i]] for an integer [i]. A [dict] from JSON has only [str] keys, so an
    integer key is never found. *)
Definition getitem (v : pyval) (i : Z) : result pyval :=
  match v with
  | PStr s =>
      match seq_index (list_ascii_of_string s) i with
      | Some c => Ok (PStr (String c ""))
      | None => Raise (IndexError "string index out of range")
      end
  | PList elts =>
      match seq_index elts i with
      | Some x => Ok x
      | None => Raise (IndexError "list index out of range")
      end
  | PDict _ => Raise (KeyError i)
  | _ => Raise (TypeError "object is not subscriptable")
  end.

(** [v != s] for a [str] [s]: a value of another type never equals a
    [str]. *)
Definition ne_str (v : pyval) (s : string) : bool :=
  match v with
  | PStr t => negb (String.eqb t s)
  | _ => true
  end.

(** The last character of a string, if any. *)
Fixpoint last_char (s : string) : option ascii :=
  match s with
  | EmptyString => None
  | String c EmptyString => Some c
  | String _ s' => last_char s'
  end.

(** [p] is a prefix of [s] ([s.startswith(p)]). *)
Definition is_prefix (p s : string) : bool := String.prefix p s.

End Py.

(** ** The schema of the structured-output notebook *)

Module Structured.
Import Py.
Local Open Scope py_scope.

(** [class Joke(BaseModel)]: [setup: str], [punchline: str]. *)
Record Joke : Type := mkJoke { setup : string; punchline : string }.

(** The pre-validator of [Joke]:
<<
    setup = values.get("setup")
    if setup and setup[-1] != "?":
        raise ValueError("Badly formed question!")
    return values
>>
    [a and b] is [a] when [a] is falsy and [b] otherwise; the [if] tests the
    truth value of the result. *)
Definition question_ends_with_question_mark (values : dict) : result dict :=
  let setup := dict_get values "setup" in
  test <- (if truthy setup
           then (last <- getitem setup (-1) ;;
                 ret (PBool (ne_str last "?")))
           else ret setup) ;;
  if truthy test
  then Raise (ValueError "Badly formed question!")
  else ret values.

(** Modelled from the spec: the validation pydantic runs for the two declared
    fields ("a schema with two string fields") is not in the notebooks; a
    field must be present and hold a [str]. *)
Definition str_field (values : dict) (name : string) : result string :=
  match dict_lookup values name with
  | None => Raise (ValidationError name Missing)
  | Some (PStr s) => Ok s
  | Some _ => Raise (ValidationError name StringType)
  end.

(** [Joke.model_validate(values)]: the [mode="before"] validator runs on the
    raw input, then the fields are validated.  The library reports an
    exception of the validator inside an exception of its own; the result
    keeps the exception that made the validation fail, so that its origin
    can be told. *)
Definition model_validate (values : dict) : result Joke :=
  values' <- question_ends_with_question_mark values ;;
  s <- str_field values' "setup" ;;
  p <- str_field values' "punchline" ;;
  ret (mkJoke s p).

(** [Joke(setup=s, punchline=p)]. *)
Definition Joke_init (s p : string) : result Joke :=
  model_validate [("setup", PStr s); ("punchline", PStr p)].

(** [Joke.model_dump()]. *)
Definition model_dump (j : Joke) : dict :=
  [("setup", PStr (setup j)); ("punchline", PStr (punchline j))].

(** The exception of the validator's [raise] statement. *)
Definition badly_formed : exn := ValueError "Badly formed question!".

(** The ["setup"] entry of [values] is a non-empty string whose last
    character is not a question mark. *)
Definition unfinished_question (values : dict) : Prop :=
  exists s, dict_lookup values "setup" = Some (PStr s)
            /\ s <> "" /\ last_char s <> Some "?"%char.

(** The ["setup"] entry of [values] is absent, [None] or a string. *)
Definition setup_absent_or_str (values : dict) : Prop :=
  dict_lookup values "setup" = None
  \/ dict_lookup values "setup" = Some PNone
  \/ exists s, dict_lookup values "setup" = Some (PStr s).

(** The string is empty or ends with a question mark. *)
Definition question_or_empty (s : string) : Prop :=
  s = "" \/ last_char s = Some "?"%char.

(** The ["setup"] value is falsy, or its last element is ["?"]. *)
Definition test_fails (values : dict) : Prop :=
  truthy (dict_get values "setup") = false
  \/ exists x, getitem (dict_get values "setup") (-1) = Ok x
               /\ ne_str x "?" = false.

(** The ["setup"] value is truthy and its last element is not ["?"]: the
    test of the validator's [if]. *)
Definition test_holds (values : dict) : Prop :=
  truthy (dict_get values "setup") = true
  /\ exists x, getitem (dict_get values "setup") (-1) = Ok x
               /\ ne_str x "?" = true.

(** Where an exception of a parse comes from: the validator the notebook
    defines (its [raise] statement, or the evaluation of its test), or the
    library's validation of the fields. *)
Inductive origin : Type :=
| ValidatorRaise
| ValidatorExpression
| LibraryValidation.

Definition raised_by (e : exn) : origin :=
  match e with
  | ValueError _ => ValidatorRaise
  | TypeError _ | IndexError _ | KeyError _ => ValidatorExpression
  | ValidationError _ _ => LibraryValidation
  end.

Definition defined_in_repository (o : origin) : bool :=
  match o with
  | ValidatorRaise | ValidatorExpression => true
  | LibraryValidation => false
  end.

End Structured.

(** ** Syntax of the code cells *)

Module PyAst.
Import Py.

(** A subset of Python's [ast], with the node names of that module. *)
Inductive constant : Type :=
| CNone
| CBool (b : bool)
| CInt (z : Z)
| CFloat (literal : string)
| CStr (s : string).

Inductive operator : Type := BitOr.
Inductive boolop : Type := And | Or.
Inductive cmpop : Type := Eq | NotEq.
Inductive unaryop : Type := USub | Not.

Inductive expr : Type :=
| EName (id : string)
| EConst (value : constant)
| EList (elts : list expr)
| EDict (items : list (expr * expr))
| EAttr (value : expr) (attr : string)
| ECall (func : expr) (args : list expr) (keywords : list (string * expr))
| EBinOp (left : expr) (op : operator) (right : expr)
| EBoolOp (op : boolop) (left right : expr)
| ECompare (left : expr) (op : cmpop) (right : expr)
| ESubscript (value : expr) (slice : expr)
| EUnaryOp (op : unaryop) (operand : expr).

Inductive stmt : Type :=
| SImport (module : string)
| SImportFrom (module : string) (names : list string)
| SAssign (target : string) (value : expr)
| SAnnAssign (target : string) (annotation : expr) (value : expr)
| SExpr (value : expr)
| SIf (test : expr) (body orelse : list stmt)
| SFor (target : string) (iter : expr) (body : list stmt)
| SWhile (test : expr) (body : list stmt)
| STry (body handler : list stmt)
| SRaise (exc : expr)
| SReturn (value : expr)
| SFunctionDef (name : string) (decorators : list expr)
    (params : list (string * option expr)) (returns : option expr)
    (body : list stmt)
| SClassDef (name : string) (bases : list expr) (body : list stmt)
| SShell (argv : list string).   (* a [!command] line of a cell *)

Definition Str (s : string) : expr := EConst (CStr s).

(** *** Traversals *)

(** Every sub-expression of [e], operands before the node they belong to:
    the order in which Python finishes evaluating them. *)
Fixpoint subexprs (e : expr) : list expr :=
  match e with
  | EName _ | EConst _ => []
  | EList elts => flat_map subexprs elts
  | EDict items =>
      flat_map (fun kv => let '(k, v) := kv in subexprs k ++ subexprs v) items
  | EAttr v _ => subexprs v
  | ECall f args kws =>
      subexprs f ++ flat_map subexprs args
        ++ flat_map (fun kw => let '(_, v) := kw in subexprs v) kws
  | EBinOp l _ r => subexprs l ++ subexprs r
  | EBoolOp _ l r => subexprs l ++ subexprs r
  | ECompare l _ r => subexprs l ++ subexprs r
  | ESubscript v i => subexprs v ++ subexprs i
  | EUnaryOp _ o => subexprs o
  end ++ [e].

(** Every statement nested in [s], [s] first. *)
Fixpoint substmts (s : stmt) : list stmt :=
  s :: match s with
       | SIf _ b e => flat_map substmts b ++ flat_map substmts e
       | SFor _ _ b => flat_map substmts b
       | SWhile _ b => flat_map substmts b
       | STry b h => flat_map substmts b ++ flat_map substmts h
       | SFunctionDef _ _ _ _ b => flat_map substmts b
       | SClassDef _ _ b => flat_map substmts b
       | _ => []
       end.

(** The expressions a statement holds itself (not those of nested
    statements). *)
Definition own_exprs (s : stmt) : list expr :=
  match s with
  | SAssign _ v => [v]
  | SAnnAssign _ a v => [a; v]
  | SExpr v => [v]
  | SIf t _ _ => [t]
  | SFor _ i _ => [i]
  | SWhile t _ => [t]
  | SRaise e => [e]
  | SReturn v => [v]
  | SFunctionDef _ ds ps r _ =>
      ds ++ flat_map (fun p => match snd p with Some a => [a] | None => [] end) ps
         ++ match r with Some a => [a] | None => [] end
  | SClassDef _ bs _ => bs
  | _ => []
  end.

Definition all_stmts (code : list stmt) : list stmt := flat_map substmts code.

Definition all_exprs (code : list stmt) : list expr :=
  flat_map subexprs (flat_map own_exprs (all_stmts code)).

(** *** What the claims ask of the syntax *)

Definition is_branch (s : stmt) : bool :=
  match s with
  | SIf _ _ _ | SFor _ _ _ | SWhile _ _ | STry _ _ => true
  | _ => false
  end.

Definition is_try (s : stmt) : bool :=
  match s with STry _ _ => true | _ => false end.

Definition is_raise (s : stmt) : bool :=
  match s with SRaise _ => true | _ => false end.

Definition is_function_def (s : stmt) : bool :=
  match s with SFunctionDef _ _ _ _ _ => true | _ => false end.

(** No conditional, loop or handler anywhere, function bodies included. *)
Definition branch_free (code : list stmt) : bool :=
  forallb (fun s => negb (is_branch s)) (all_stmts code).

(** No conditional, loop or handler among the statements a cell runs
    itself. *)
Definition straight_line (code : list stmt) : bool :=
  forallb (fun s => negb (is_branch s)) code.

Definition function_defs (code : list stmt) : list stmt :=
  filter is_function_def (all_stmts code).

Definition function_names (code : list stmt) : list string :=
  flat_map (fun s => match s with SFunctionDef n _ _ _ _ => [n] | _ => [] end)
           (all_stmts code).

Definition raise_stmts (code : list stmt) : list stmt :=
  filter is_raise (all_stmts code).

Definition try_stmts (code : list stmt) : list stmt :=
  filter is_try (all_stmts code).

(** The methods called on the variable [recv], as [recv.m(...)], in
    evaluation order. *)
Definition method_calls_on (recv : string) (code : list stmt) : list string :=
  flat_map (fun e =>
              match e with
              | ECall (EAttr (EName r) m) _ _ =>
                  if String.eqb r recv then [m] else []
              | _ => []
              end)
           (all_exprs code).

(** Every method call [e.m(...)] of the code: receiver and method, in
    evaluation order. *)
Definition method_calls (code : list stmt) : list (expr * string) :=
  flat_map (fun e =>
              match e with
              | ECall (EAttr r m) _ _ => [(r, m)]
              | _ => []
              end)
           (all_exprs code).

(** The number of places where the variable [x] is read. *)
Definition name_uses (x : string) (code : list stmt) : nat :=
  List.length
    (filter (fun e => match e with
                      | EName y => String.eqb y x
                      | _ => false
                      end)
            (all_exprs code)).

(** The annotated fields of a class body: name and annotation. *)
Definition class_fields (s : stmt) : list (string * expr) :=
  match s with
  | SClassDef _ _ body =>
      flat_map (fun d => match d with
                         | SAnnAssign x a _ => [(x, a)]
                         | _ => []
                         end) body
  | _ => []
  end.

(** The stages of [a | b | ... | z], left to right. *)
Fixpoint pipe_stages (e : expr) : list expr :=
  match e with
  | EBinOp l BitOr r => pipe_stages l ++ [r]
  | _ => [e]
  end.

(** *** Literals *)

Fixpoint sequence {A} (l : list (option A)) : option (list A) :=
  match l with
  | [] => Some []
  | Some a :: l' => option_map (cons a) (sequence l')
  | None :: _ => None
  end.

(** The value of an expression built from constants, list displays and dict
    displays with [str] keys. *)
Fixpoint literal (e : expr) : option pyval :=
  match e with
  | EConst CNone => Some PNone
  | EConst (CBool b) => Some (PBool b)
  | EConst (CInt z) => Some (PInt z)
  | EConst (CStr s) => Some (PStr s)
  | EList elts => option_map PList (sequence (map literal elts))
  | EDict items =>
      option_map PDict
        (sequence
           (map (fun kv =>
                   match kv with
                   | (EConst (CStr k), v) => option_map (pair k) (literal v)
                   | _ => None
                   end) items))
  | _ => None
  end.

Definition keyword (kws : list (string * expr)) (k : string) : option expr :=
  option_map snd (find (fun kw => String.eqb (fst kw) k) kws).

(** *** An interpreter for the fragment the validator is written in *)

(** [None] stands for an expression outside the fragment. *)
Fixpoint eval (env : dict) (e : expr) : option (result pyval) :=
  match e with
  | EName x => option_map Ok (dict_lookup env x)
  | EConst _ => option_map Ok (literal e)
  | EUnaryOp USub o =>
      match eval env o with
      | Some (Ok (PInt z)) => Some (Ok (PInt (- z)))
      | Some (Raise x) => Some (Raise x)
      | _ => None
      end
  | ESubscript v i =>
      match eval env v with
      | Some (Ok a) =>
          match eval env i with
          | Some (Ok (PInt z)) => Some (getitem a z)
          | Some (Raise x) => Some (Raise x)
          | _ => None
          end
      | r => r
      end
  | ECompare l NotEq r =>
      match eval env l with
      | Some (Ok a) =>
          match eval env r with
          | Some (Ok (PStr s)) => Some (Ok (PBool (ne_str a s)))
          | Some (Raise x) => Some (Raise x)
          | _ => None
          end
      | r => r
      end
  | EBoolOp And l r =>
      match eval env l with
      | Some (Ok a) => if truthy a then eval env r else Some (Ok a)
      | r => r
      end
  | ECall (EAttr d "get") [k] [] =>
      match eval env d with
      | Some (Ok (PDict items)) =>
          match eval env k with
          | Some (Ok (PStr key)) => Some (Ok (dict_get items key))
          | Some (Raise x) => Some (Raise x)
          | _ => None
          end
      | Some (Raise x) => Some (Raise x)
      | _ => None
      end
  | _ => None
  end.

Inductive outcome : Type :=
| Next (env : dict)        (* fell through to the next statement *)
| Returned (v : pyval)
| Raised (e : exn)
| Unsupported.

Fixpoint exec (env : dict) (s : stmt) {struct s} : outcome :=
  let fix block (env : dict) (ss : list stmt) {struct ss} : outcome :=
    match ss with
    | [] => Next env
    | s' :: ss' =>
        match exec env s' with
        | Next env' => block env' ss'
        | o => o
        end
    end in
  match s with
  | SAssign x e =>
      match eval env e with
      | Some (Ok v) => Next ((x, v) :: env)
      | Some (Raise x) => Raised x
      | None => Unsupported
      end
  | SIf t body orelse =>
      match eval env t with
      | Some (Ok v) => if truthy v then block env body else block env orelse
      | Some (Raise x) => Raised x
      | None => Unsupported
      end
  | SRaise (ECall (EName "ValueError") [m] []) =>
      match eval env m with
      | Some (Ok (PStr msg)) => Raised (ValueError msg)
      | Some (Raise x) => Raised x
      | _ => Unsupported
      end
  | SReturn e =>
      match eval env e with
      | Some (Ok v) => Returned v
      | Some (Raise x) => Raised x
      | None => Unsupported
      end
  | _ => Unsupported
  end.

Fixpoint exec_block (env : dict) (ss : list stmt) : outcome :=
  match ss with
  | [] => Next env
  | s :: ss' =>
      match exec env s with
      | Next env' => exec_block env' ss'
      | o => o
      end
  end.

(** Calling a [classmethod]: the first parameter is the class, which the
    fragment has no value for and leaves unbound; the others take the
    arguments.  A body that ends without [return] returns [None]. *)
Definition call_classmethod (f : stmt) (args : list pyval) : outcome :=
  match f with
  | SFunctionDef _ _ (_ :: params) _ body =>
      if Nat.eqb (List.length params) (List.length args)
      then match exec_block (combine (map fst params) args) body with
           | Next _ => Returned PNone
           | o => o
           end
      else Unsupported
  | _ => Unsupported
  end.

(** What a call gives for a function that returns a dictionary or
    raises. *)
Definition outcome_of (r : result dict) : outcome :=
  match r with
  | Ok d => Returned (PDict d)
  | Raise e => Raised e
  end.

End PyAst.

(** ** The code cells of [output_parser_structured.ipynb] *)

Module StructuredSrc.
Import PyAst.

(** [if setup and setup[-1] != "?": raise ValueError(...)]. *)
Definition validator_if : stmt :=
  SIf (EBoolOp And
         (EName "setup")
         (ECompare
            (ESubscript (EName "setup") (EUnaryOp USub (EConst (CInt 1))))
            NotEq (Str "?")))
      [SRaise (ECall (EName "ValueError") [Str "Badly formed question!"] [])]
      [].

Definition question_ends_with_question_mark_def : stmt :=
  SFunctionDef "question_ends_with_question_mark"
    [ECall (EName "model_validator") [] [("mode", Str "before")];
     EName "classmethod"]
    [("cls", None); ("values", Some (EName "dict"))]
    (Some (EName "dict"))
    [SAssign "setup" (ECall (EAttr (EName "values") "get") [Str "setup"] []);
     validator_if;
     SReturn (EName "values")].

Definition Joke_def : stmt :=
  SClassDef "Joke" [EName "BaseModel"]
    [SAnnAssign "setup" (EName "str")
       (ECall (EName "Field") []
          [("description", Str "question to set up a joke")]);
     SAnnAssign "punchline" (EName "str")
       (ECall (EName "Field") []
          [("description", Str "answer to resolve the joke")]);
     question_ends_with_question_mark_def].

Definition cell_1 : list stmt :=
  [SImportFrom "langchain_core.output_parsers" ["PydanticOutputParser"];
   SImportFrom "langchain_core.prompts" ["PromptTemplate"];
   SImportFrom "langchain_openai" ["OpenAI"];
   SImportFrom "pydantic" ["BaseModel"; "Field"; "model_validator"];
   SAssign "model"
     (ECall (EName "OpenAI") []
        [("model_name", Str "gpt-3.5-turbo-instruct");
         ("temperature", EConst (CFloat "0.0"))]);
   Joke_def;
   SAssign "parser"
     (ECall (EName "PydanticOutputParser") []
        [("pydantic_object", EName "Joke")]);
   SAssign "prompt"
     (ECall (EName "PromptTemplate") []
        [("template", Str "Answer the user query.
{format_instructions}
{query}
");
         ("input_variables", EList [Str "query"]);
         ("partial_variables",
          EDict [(Str "format_instructions",
                  ECall (EAttr (EName "parser") "get_format_instructions")
                        [] [])])]);
   SAssign "prompt_and_model" (EBinOp (EName "prompt") BitOr (EName "model"));
   SAssign "output"
     (ECall (EAttr (EName "prompt_and_model") "invoke")
        [EDict [(Str "query", Str "Tell me a joke.")]] []);
   SExpr (ECall (EAttr (EName "parser") "invoke") [EName "output"] [])].

Definition cell_2 : list stmt :=
  [SExpr (ECall (EAttr (EName "parser") "invoke") [EName "output"] [])].

Definition cell_3 : list stmt :=
  [SAssign "chain"
     (EBinOp (EBinOp (EName "prompt") BitOr (EName "model"))
             BitOr (EName "parser"));
   SExpr (ECall (EAttr (EName "chain") "invoke")
            [EDict [(Str "query", Str "Tell me a joke.")]] [])].

Definition cell_4 : list stmt :=
  [SImportFrom "langchain.output_parsers.json" ["SimpleJsonOutputParser"];
   SAssign "json_prompt"
     (ECall (EAttr (EName "PromptTemplate") "from_template")
        [Str "Return a JSON object with an `answer` key that answers the following question: {question}"]
        []);
   SAssign "json_parser" (ECall (EName "SimpleJsonOutputParser") [] []);
   SAssign "json_chain"
     (EBinOp (EBinOp (EName "json_prompt") BitOr (EName "model"))
             BitOr (EName "json_parser"))].

Definition cell_5 : list stmt :=
  [SExpr (ECall (EName "list")
            [ECall (EAttr (EName "json_chain") "stream")
               [EDict [(Str "question", Str "Who invented the microscope?")]]
               []]
            [])].

Definition cell_6 : list stmt :=
  [SExpr (ECall (EName "list")
            [ECall (EAttr (EName "chain") "stream")
               [EDict [(Str "query", Str "Tell me a joke.")]] []]
            [])].

Definition cells : list (list stmt) :=
  [cell_1; cell_2; cell_3; cell_4; cell_5; cell_6].

Definition code : list stmt := concat cells.

End StructuredSrc.

(** ** The code cells of [hybrid.ipynb] *)

Module HybridSrc.
Import PyAst.

Definition question : expr := Str "What city did I visit last?".

(** The literals the claims speak of: the list given to [add_texts], the
    search parameters of the second retriever, the configuration of the
    second chain call, the declaration of the configurable field and the
    pipeline. *)
Definition inserted_texts : list expr :=
  [Str "In 2023, I visited Paris";
   Str "In 2022, I visited New York";
   Str "In 2021, I visited New Orleans"].

Definition search_kwargs_new : expr := EDict [(Str "body_search", Str "new")].

Definition config_new : expr :=
  EDict [(Str "configurable",
          EDict [(Str "search_kwargs",
                  EDict [(Str "body_search", Str "new")])])].

Definition configurable_fields_call : expr :=
  ECall (EAttr (EName "retriever") "configurable_fields") []
    [("search_kwargs",
      ECall (EName "ConfigurableField") []
        [("id", Str "search_kwargs");
         ("name", Str "Search Kwargs");
         ("description", Str "The search kwargs to use")])].

Definition pipeline : expr :=
  EBinOp
    (EBinOp
       (EBinOp
          (EDict [(Str "context", EName "configurable_retriever");
                  (Str "question",
                   ECall (EName "RunnablePassthrough") [] [])])
          BitOr (EName "prompt"))
       BitOr (EName "model"))
    BitOr (ECall (EName "StrOutputParser") [] []).

Definition cell_c2efe35eea197769 : list stmt :=
  [SShell ["pip"; "install"; "cassio>=0.1.7"]].

Definition cell_cb2cef097277c32e : list stmt :=
  [SImport "cassio";
   SExpr (ECall (EAttr (EName "cassio") "init") []
            [("database_id", Str "Your database ID");
             ("token", Str "Your application token");
             ("keyspace", Str "Your key space")])].

Definition cell_7345de3c : list stmt :=
  [SImportFrom "cassio.table.cql" ["STANDARD_ANALYZER"];
   SImportFrom "langchain_community.vectorstores" ["Cassandra"];
   SImportFrom "langchain_openai" ["OpenAIEmbeddings"];
   SAssign "embeddings" (ECall (EName "OpenAIEmbeddings") [] []);
   SAssign "vectorstore"
     (ECall (EName "Cassandra") []
        [("embedding", EName "embeddings");
         ("table_name", Str "test_hybrid");
         ("body_index_options", EList [EName "STANDARD_ANALYZER"]);
         ("session", EConst CNone);
         ("keyspace", EConst CNone)]);
   SExpr (ECall (EAttr (EName "vectorstore") "add_texts")
            [EList inserted_texts] [])].

Definition cell_3c2a39fa : list stmt :=
  [SExpr (ECall
            (EAttr (ECall (EAttr (EName "vectorstore") "as_retriever") [] [])
                   "invoke")
            [question] [])].

Definition cell_56393baa : list stmt :=
  [SExpr (ECall
            (EAttr (ECall (EAttr (EName "vectorstore") "as_retriever") []
                      [("search_kwargs", search_kwargs_new)])
                   "invoke")
            [question] [])].

Definition cell_62707b4f : list stmt :=
  [SImportFrom "langchain_core.output_parsers" ["StrOutputParser"];
   SImportFrom "langchain_core.prompts" ["ChatPromptTemplate"];
   SImportFrom "langchain_core.runnables"
     ["ConfigurableField"; "RunnablePassthrough"];
   SImportFrom "langchain_openai" ["ChatOpenAI"]].

Definition cell_44a865f6 : list stmt :=
  [SAssign "template"
     (Str "Answer the question based only on the following context:
{context}
Question: {question}
");
   SAssign "prompt"
     (ECall (EAttr (EName "ChatPromptTemplate") "from_template")
        [EName "template"] []);
   SAssign "model" (ECall (EName "ChatOpenAI") [] []);
   SAssign "retriever"
     (ECall (EAttr (EName "vectorstore") "as_retriever") [] [])].

Definition cell_babbadff : list stmt :=
  [SAssign "configurable_retriever" configurable_fields_call].

Definition cell_210b0446 : list stmt :=
  [SAssign "chain" pipeline].

Definition cell_a38037b2 : list stmt :=
  [SExpr (ECall (EAttr (EName "chain") "invoke") [question] [])].

Definition cell_9gYLqBTH8BFz : list stmt :=
  [SExpr (ECall (EAttr (EName "chain") "invoke") [question]
            [("config", config_new)])].

Definition cells : list (list stmt) :=
  [cell_c2efe35eea197769; cell_cb2cef097277c32e; cell_7345de3c;
   cell_3c2a39fa; cell_56393baa; cell_62707b4f; cell_44a865f6;
   cell_babbadff; cell_210b0446; cell_a38037b2; cell_9gYLqBTH8BFz].

Definition code : list stmt := concat cells.

(** *** The steps of the notebook *)




End HybridSrc.

(** ** What the structured-output notebook records *)

Module StructuredOut.
Import Py Structured.

(** [Out[1]], [Out[2]] and [Out[3]]: the result of [parser.invoke(output)]
    (twice) and of [chain.invoke(...)]. *)
Definition out_1 : Joke :=
  mkJoke "Why did the tomato turn red?" "Because it saw the salad dressing!".
Definition out_2 : Joke :=
  mkJoke "Why did the tomato turn red?" "Because it saw the salad dressing!".
Definition out_3 : Joke :=
  mkJoke "Why did the tomato turn red?" "Because it saw the salad dressing!".

(** [Out[5]]: [list(json_chain.stream(...))]. *)
Definition out_5 : list dict :=
  [[];
   [("answer", PStr "")];
   [("answer", PStr "Ant")];
   [("answer", PStr "Anton")];
   [("answer", PStr "Antonie")];
   [("answer", PStr "Antonie van")];
   [("answer", PStr "Antonie van Lee")];
   [("answer", PStr "Antonie van Leeu")];
   [("answer", PStr "Antonie van Leeuwen")];
   [("answer", PStr "Antonie van Leeuwenho")];
   [("answer", PStr "Antonie van Leeuwenhoek")]].

(** [Out[6]]: [list(chain.stream(...))]. *)
Definition out_6 : list Joke :=
  [mkJoke "Why did the tomato turn red?" "";
   mkJoke "Why did the tomato turn red?" "Because";
   mkJoke "Why did the tomato turn red?" "Because it";
   mkJoke "Why did the tomato turn red?" "Because it saw";
   mkJoke "Why did the tomato turn red?" "Because it saw the";
   mkJoke "Why did the tomato turn red?" "Because it saw the salad";
   mkJoke "Why did the tomato turn red?" "Because it saw the salad dressing";
   mkJoke "Why did the tomato turn red?" "Because it saw the salad dressing!"].

(** [p] is a prefix of [s]. *)
Definition Prefix (p s : string) : Prop := exists rest, s = (p ++ rest)%string.

(** Every [str] field of [d] is a field of [d'] whose value it is a prefix
    of. *)
Definition dict_grows (d d' : dict) : Prop :=
  forall k s, In (k, PStr s) d ->
    exists s', dict_lookup d' k = Some (PStr s') /\ Prefix s s'.

Definition joke_grows (j j' : Joke) : Prop :=
  Prefix (setup j) (setup j') /\ Prefix (punchline j) (punchline j').

(** Each element of the sequence is in relation [R] with the next one. *)
Definition chained {A} (R : A -> A -> Prop) (l : list A) : Prop :=
  forall i a b, nth_error l i = Some a -> nth_error l (S i) = Some b -> R a b.

(** The executable counterparts. *)
Definition dict_growsb (d d' : dict) : bool :=
  forallb (fun kv =>
             match kv with
             | (k, PStr s) =>
                 match dict_lookup d' k with
                 | Some (PStr s') => is_prefix s s'
                 | _ => false
                 end
             | _ => true
             end) d.

Definition joke_growsb (j j' : Joke) : bool :=
  is_prefix (setup j) (setup j') && is_prefix (punchline j) (punchline j').

Fixpoint chainedb {A} (r : A -> A -> bool) (l : list A) : bool :=
  match l with
  | a :: (b :: _) as l' => r a b && chainedb r l'
  | _ => true
  end.

End StructuredOut.

(** ** Retrieval in the hybrid-search notebook *)

Module Hybrid.
Import Py.

Record Document : Type := mkDocument { page_content : string }.

(** The argument of [vectorstore.add_texts]. *)
Definition texts : list string :=
  ["In 2023, I visited Paris";
   "In 2022, I visited New York";
   "In 2021, I visited New Orleans"].

Definition question : string := "What city did I visit last?".



Definition out_a38037b2 : string := "Paris".
Definition out_9gYLqBTH8BFz : string := "New York".

(** *** Term matching *)

Definition is_upper (c : ascii) : bool :=
  (65 <=? nat_of_ascii c)%nat && (nat_of_ascii c <=? 90)%nat.
Definition is_lower (c : ascii) : bool :=
  (97 <=? nat_of_ascii c)%nat && (nat_of_ascii c <=? 122)%nat.
Definition is_digit (c : ascii) : bool :=
  (48 <=? nat_of_ascii c)%nat && (nat_of_ascii c <=? 57)%nat.
Definition is_alnum (c : ascii) : bool :=
  is_upper c || is_lower c || is_digit c.

Definition lower (c : ascii) : ascii :=
  if is_upper c then ascii_of_nat (nat_of_ascii c + 32) else c.

Definition flush (cur : string) : list string :=
  if String.eqb cur "" then [] else [cur].

(** The terms of a text: its maximal runs of letters and digits, in lower
    case.  [cur] is the run being read. *)
Fixpoint terms_from (cur : string) (s : string) : list string :=
  match s with
  | EmptyString => flush cur
  | String c s' =>
      if is_alnum c
      then terms_from (cur ++ String (lower c) "")%string s'
      else flush cur ++ terms_from "" s'
  end.

Definition terms (s : string) : list string := terms_from "" s.

(** Modelled from the spec: the keyword filter of the vector store
    ("keyword/full-text filtering") is not in the notebooks, which say that
    the standard analyzer of the index enables term matching and that
    [body_search] filters the search on a term.  A text matches when every
    term of the filter is one of its terms. *)
Definition contains_term (term text : string) : bool :=
  forallb (fun t => existsb (String.eqb t) (terms text)) (terms term).

Section VectorStore.

(** The order in which the vector index ranks the stored texts for a query:
    it depends on the embeddings and is left open. *)
Variable similarity_order : string -> list string -> list string.

(** Modelled from the spec: the search of the vector store ("combining
    vector-similarity search with keyword/full-text filtering") is not in
    the notebooks.  The stored texts come in similarity order; a
    [body_search] entry of the search parameters keeps those that contain
    the term.  A [body_search] that is not a string is outside the model. *)
Definition similarity_search (store : list string) (query : string)
    (kwargs : dict) : option (list Document) :=
  let ranked := similarity_order query store in
  match dict_lookup kwargs "body_search" with
  | None | Some PNone => Some (map mkDocument ranked)
  | Some (PStr term) =>
      Some (map mkDocument (filter (contains_term term) ranked))
  | Some _ => None
  end.

End VectorStore.

(** *** Retrievers and their configuration *)

(** Modelled from the spec: the retriever class is not in the notebooks,
    which say that every vector-store retriever has [search_kwargs] as a
    field and that it is just a dictionary. *)
Record VectorStoreRetriever : Type :=
  mkRetriever { store : list string; search_kwargs : dict }.

(** [vectorstore.as_retriever(search_kwargs=...)]; without the keyword the
    dictionary is empty. *)
Definition as_retriever (vs : list string) (kwargs : option dict)
  : VectorStoreRetriever :=
  mkRetriever vs (match kwargs with Some d => d | None => [] end).

(** What a retriever asks of the database client. *)
Record search_call : Type :=
  mkSearchCall { call_query : string; call_kwargs : dict }.

(** Modelled from the spec: [retriever.invoke(query)] "merely passes a
    dictionary of search parameters through to an external database
    client". *)
Definition retriever_call (r : VectorStoreRetriever) (query : string)
  : search_call :=
  mkSearchCall query (search_kwargs r).

(** [ConfigurableField(id=..., name=..., description=...)]. *)
Record ConfigurableField : Type :=
  mkConfigurableField { id : string; name : string; description : string }.

(** [retriever.configurable_fields(field=ConfigurableField(...), ...)]. *)
Record RunnableConfigurableFields : Type :=
  mkConfigurable { default : VectorStoreRetriever;
                   fields : list (string * ConfigurableField) }.

Definition configurable_fields (r : VectorStoreRetriever)
    (fs : list (string * ConfigurableField)) : RunnableConfigurableFields :=
  mkConfigurable r fs.

(** Setting a field of the retriever by name; [search_kwargs] is the field
    the model has, and it holds a dictionary. *)
Definition set_field (r : VectorStoreRetriever) (field : string) (v : pyval)
  : option VectorStoreRetriever :=
  match v with
  | PDict d =>
      if String.eqb field "search_kwargs"
      then Some (mkRetriever (store r) d)
      else None
  | _ => None
  end.

(** [config["configurable"][id]], when present. *)
Definition configurable_value (config : dict) (id : string) : option pyval :=
  match dict_lookup config "configurable" with
  | Some (PDict c) => dict_lookup c id
  | _ => None
  end.

(** Modelled from the spec: configuring a retriever "at call time".  Each
    configurable field whose id has a value in the configuration takes that
    value; the others keep the value of the default retriever. *)
Fixpoint prepare_fields (r : VectorStoreRetriever)
    (fs : list (string * ConfigurableField)) (config : dict)
  : option VectorStoreRetriever :=
  match fs with
  | [] => Some r
  | (field, cf) :: fs' =>
      match configurable_value config (id cf) with
      | Some v =>
          match set_field r field v with
          | Some r' => prepare_fields r' fs' config
          | None => None
          end
      | None => prepare_fields r fs' config
      end
  end.

Definition prepare (rc : RunnableConfigurableFields) (config : dict)
  : option VectorStoreRetriever :=
  prepare_fields (default rc) (fields rc) config.

(** The fields a call [r.configurable_fields(f=ConfigurableField(id=...,
    name=..., description=...), ...)] declares, read off its keywords. *)
Definition declared_field (kw : string * PyAst.expr)
  : option (string * ConfigurableField) :=
  match kw with
  | (field, PyAst.ECall (PyAst.EName "ConfigurableField") [] kws) =>
      match PyAst.keyword kws "id", PyAst.keyword kws "name",
            PyAst.keyword kws "description" with
      | Some (PyAst.EConst (PyAst.CStr i)), Some (PyAst.EConst (PyAst.CStr n)),
        Some (PyAst.EConst (PyAst.CStr d)) =>
          Some (field, mkConfigurableField i n d)
      | _, _, _ => None
      end
  | _ => None
  end.

Definition declared_fields (e : PyAst.expr)
  : option (list (string * ConfigurableField)) :=
  match e with
  | PyAst.ECall (PyAst.EAttr _ "configurable_fields") [] kws =>
      PyAst.sequence (map declared_field kws)
  | _ => None
  end.

(** The objects of the notebook. *)
Definition retriever : VectorStoreRetriever := as_retriever texts None.

Definition configurable_retriever : RunnableConfigurableFields :=
  configurable_fields retriever
    [("search_kwargs",
      mkConfigurableField "search_kwargs" "Search Kwargs"
                          "The search kwargs to use")].

(** The request that reaches the database client when the chain
    [{"context": configurable_retriever, "question": RunnablePassthrough()}
     | prompt | model | StrOutputParser()] is invoked on [input] with
    [config] (empty when the call gives none): the retriever of the first
    stage receives the input of the chain as its query. *)
Definition chain_search_call (input : string) (config : dict)
  : option search_call :=
  option_map (fun r => retriever_call r input)
             (prepare configurable_retriever config).

(** [config={"configurable": {"search_kwargs": d}}]. *)
Definition config_with (d : dict) : dict :=
  [("configurable", PDict [("search_kwargs", PDict d)])].

End Hybrid.

(** ** Names: where they are bound and where they are read *)

Module Scope.
Import PyAst.

(** The names Python provides without an import, as far as the notebooks
    read them. *)
Definition builtins : list string :=
  ["str"; "dict"; "list"; "classmethod"; "ValueError"].

(** The names an expression reads. *)
Definition names_read (e : expr) : list string :=
  flat_map (fun e' => match e' with EName x => [x] | _ => [] end)
           (subexprs e).

(** The names a statement binds in the scope it stands in.  What the body of
    a conditional, a loop or a handler binds is not counted: it may not have
    run. *)
Definition binds (s : stmt) : list string :=
  match s with
  | SImport m => [m]
  | SImportFrom _ names => names
  | SAssign x _ => [x]
  | SAnnAssign x _ _ => [x]
  | SFor x _ _ => [x]
  | SFunctionDef n _ _ _ _ => [n]
  | SClassDef n _ _ => [n]
  | _ => []
  end.

Definition bound (env : list string) (x : string) : bool :=
  existsb (String.eqb x) env.

(** Every name the statement reads is bound when it is read.  [outer] holds
    the names of the enclosing module and functions, which the body of a
    nested function sees; [local] holds the names bound so far in a class
    body, which the statements of that body see and the functions defined in
    it do not.  [in_class] tells which of the two a binding extends.  The
    body of a function is checked with the names bound where it is
    defined. *)
Fixpoint scoped (in_class : bool) (outer local : list string) (s : stmt)
  {struct s} : bool :=
  let fix block (in_class : bool) (outer local : list string)
          (ss : list stmt) {struct ss} : bool :=
    match ss with
    | [] => true
    | s' :: ss' =>
        scoped in_class outer local s'
        && (if in_class
            then block true outer (binds s' ++ local) ss'
            else block false (binds s' ++ outer) local ss')
    end in
  forallb (bound (local ++ outer)) (flat_map names_read (own_exprs s))
  && match s with
     | SIf _ b e =>
         block in_class outer local b && block in_class outer local e
     | SFor x _ b =>
         if in_class then block true outer (x :: local) b
         else block false (x :: outer) local b
     | SWhile _ b => block in_class outer local b
     | STry b h =>
         block in_class outer local b && block in_class outer local h
     | SFunctionDef n _ params _ b =>
         block false
               (map fst params ++ (if in_class then outer else n :: outer))
               [] b
     | SClassDef _ _ b => block true outer [] b
     | _ => true
     end.

(** A sequence of module-level statements, run in order from the names
    [env]. *)
Fixpoint scoped_code (env : list string) (code : list stmt) : bool :=
  match code with
  | [] => true
  | s :: code' => scoped false env [] s && scoped_code (binds s ++ env) code'
  end.

(** The parameters and the body of a function definition. *)
Definition params_of (s : stmt) : list string :=
  match s with SFunctionDef _ _ params _ _ => map fst params | _ => [] end.

Definition body_of (s : stmt) : list stmt :=
  match s with SFunctionDef _ _ _ _ b => b | _ => [] end.

(** The names a sequence of module-level statements leaves bound. *)
Fixpoint bound_after (env : list string) (code : list stmt) : list string :=
  match code with
  | [] => env
  | s :: code' => bound_after (binds s ++ env) code'
  end.

End Scope.

(** ** Prompt templates and the variables they are given *)

Module Prompts.
Import PyAst.

(** The names a template holds between braces, in order.  [cur] is the name
    being read, if a brace is open. *)
Fixpoint placeholders_from (cur : option string) (s : string) : list string :=
  match s with
  | EmptyString => []
  | String c s' =>
      match cur with
      | None =>
          if Ascii.eqb c "{" then placeholders_from (Some "") s'
          else placeholders_from None s'
      | Some name =>
          if Ascii.eqb c "}" then name :: placeholders_from None s'
          else placeholders_from (Some (name ++ String c "")%string) s'
      end
  end.

Definition placeholders (template : string) : list string :=
  placeholders_from None template.

(** Reading the code. *)
Definition assigned (x : string) (code : list stmt) : option expr :=
  match find (fun s => match s with
                       | SAssign y _ => String.eqb y x
                       | _ => false
                       end) code with
  | Some (SAssign _ v) => Some v
  | _ => None
  end.

Definition str_of (e : expr) : option string :=
  match e with EConst (CStr s) => Some s | _ => None end.

Definition strs_of (e : expr) : option (list string) :=
  match e with
  | EList elts => sequence (map str_of elts)
  | _ => None
  end.

Definition keys_of (e : expr) : option (list string) :=
  match e with
  | EDict items => sequence (map (fun kv => str_of (fst kv)) items)
  | _ => None
  end.

Definition call_keyword (e : expr) (k : string) : option expr :=
  match e with ECall _ _ kws => keyword kws k | _ => None end.

Definition first_arg (e : expr) : option expr :=
  match e with ECall _ (a :: _) _ => Some a | _ => None end.

(** The first arguments of the calls [recv.m(...)], for the methods [ms]. *)
Definition inputs_of (recv : string) (ms : list string) (code : list stmt)
  : list expr :=
  flat_map (fun e =>
              match e with
              | ECall (EAttr (EName r) m) (a :: _) _ =>
                  if String.eqb r recv && existsb (String.eqb m) ms
                  then [a] else []
              | _ => []
              end)
           (all_exprs code).

Definition bindopt {A B} (o : option A) (f : A -> option B) : option B :=
  match o with Some a => f a | None => None end.

(** The template of [prompt] in the structured-output notebook, the
    variables it declares, and the keys of the dictionaries the chains built
    on it are called with. *)
Definition structured_template : option string :=
  bindopt (assigned "prompt" StructuredSrc.code)
          (fun c => bindopt (call_keyword c "template") str_of).

Definition structured_input_variables : option (list string) :=
  bindopt (assigned "prompt" StructuredSrc.code)
          (fun c => bindopt (call_keyword c "input_variables") strs_of).

Definition structured_partial_variables : option (list string) :=
  bindopt (assigned "prompt" StructuredSrc.code)
          (fun c => bindopt (call_keyword c "partial_variables") keys_of).

Definition structured_inputs : list (option (list string)) :=
  map keys_of
      (inputs_of "prompt_and_model" ["invoke"; "stream"] StructuredSrc.code
       ++ inputs_of "chain" ["invoke"; "stream"] StructuredSrc.code).

(** The same for [json_prompt], built with [from_template]. *)
Definition json_template : option string :=
  bindopt (assigned "json_prompt" StructuredSrc.code)
          (fun c => bindopt (first_arg c) str_of).

Definition json_inputs : list (option (list string)) :=
  map keys_of (inputs_of "json_chain" ["invoke"; "stream"] StructuredSrc.code).

(** The template of the hybrid-search notebook and the keys of the first
    stage of its pipeline, which computes the input of the prompt. *)
Definition hybrid_template : option string :=
  bindopt (assigned "template" HybridSrc.code) str_of.

Definition hybrid_prompt_input : option (list string) :=
  bindopt (assigned "chain" HybridSrc.code)
          (fun c => bindopt (hd_error (pipe_stages c)) keys_of).

End Prompts.

(** ** Counting characters *)

Module Text.

Fixpoint count_char (c : ascii) (s : string) : nat :=
  match s with
  | EmptyString => 0
  | String a s' => (if Ascii.eqb a c then 1 else 0) + count_char c s'
  end.

End Text.

(** ** Ranking *)

Module Ranking.


End Ranking.

(** ** Streaming a parser *)

Module Streaming.
Import Py Structured.

(** The output of the model so far: the chunks received, joined. *)
Fixpoint joined (chunks : list string) : string :=
  match chunks with
  | [] => ""
  | c :: cs => (c ++ joined cs)%string
  end.

(** The last element of a sequence, [d] when it is empty. *)
Fixpoint last_of {A} (d : option A) (l : list A) : option A :=
  match l with
  | [] => d
  | x :: l' => last_of (Some x) l'
  end.

Section Parser.

(** What the parser builds from a text, complete or not; [None] when it
    builds nothing.  [same] is the comparison that tells whether a result
    is new. *)
Variable R : Type.
Variable same : R -> R -> bool.
Variable parse : string -> option R.

Definition is_new (prev : option R) (r : R) : bool :=
  match prev with
  | Some p => negb (same r p)
  | None => true
  end.

(** Modelled from the spec: the streaming of a parser ("incremental
    (partial) parsing during streaming output") is library code that is not
    in the notebooks.  After each chunk the output received so far is
    parsed; a result is yielded when there is one and it differs from the
    result yielded last.  [prev] is the result yielded last, [acc] the
    output before the chunks. *)
Fixpoint stream_from (prev : option R) (acc : string) (chunks : list string)
  : list R :=
  match chunks with
  | [] => []
  | c :: cs =>
      let acc' := (acc ++ c)%string in
      match parse acc' with
      | Some r =>
          if is_new prev r
          then r :: stream_from (Some r) acc' cs
          else stream_from prev acc' cs
      | None => stream_from prev acc' cs
      end
  end.

Definition stream (chunks : list string) : list R :=
  stream_from None "" chunks.

(** Modelled from the spec: [parser.invoke(text)] ("parse its text output")
    parses the complete output; [None] stands for its exception. *)
Definition invoke (text : string) : option R := parse text.

End Parser.

Arguments stream_from {R} same parse prev acc chunks.
Arguments stream {R} same parse chunks.
Arguments invoke {R} parse text.

(** The parser bound to [Joke]: the text is read as JSON by [loads], which
    the library provides, and the dictionary is validated into the schema;
    a text that cannot be read or validated builds nothing. *)
Definition pydantic_parse (loads : string -> option dict) (text : string)
  : option Joke :=
  match loads text with
  | Some d =>
      match model_validate d with
      | Ok j => Some j
      | Raise _ => None
      end
  | None => None
  end.

(** Two instances are the same when their fields are. *)
Definition Joke_same (a b : Joke) : bool :=
  String.eqb (setup a) (setup b) && String.eqb (punchline a) (punchline b).

(** *** A reader for the outputs of the notebook

    The theorems on streams hold for every reader of JSON.  To run the model
    on an output shaped like those of the notebook, this reader takes an
    object whose values are strings without escapes, complete or cut off
    anywhere: a value cut off is closed where it stops, a key cut off is
    left out. *)

Definition dquote : ascii := ascii_of_nat 34.

Definition is_space (c : ascii) : bool :=
  Ascii.eqb c " " || Ascii.eqb c (ascii_of_nat 10)
  || Ascii.eqb c (ascii_of_nat 9) || Ascii.eqb c (ascii_of_nat 13).

Inductive reader : Type :=
| Start                        (* before the opening brace *)
| Key                          (* a key or the closing brace comes next *)
| InKey (k : string)
| Colon (k : string)           (* the key is read, the colon comes next *)
| Value (k : string)           (* the colon is read, the value comes next *)
| InValue (k v : string)
| Comma                        (* a comma or the closing brace comes next *)
| Closed
| Broken.

Definition read_char (st : reader * dict) (c : ascii) : reader * dict :=
  let '(r, items) := st in
  match r with
  | Start =>
      if is_space c then st
      else if Ascii.eqb c "{" then (Key, items) else (Broken, items)
  | Key =>
      if is_space c then st
      else if Ascii.eqb c dquote then (InKey "", items)
      else if Ascii.eqb c "}" then (Closed, items) else (Broken, items)
  | InKey k =>
      if Ascii.eqb c dquote then (Colon k, items)
      else (InKey (k ++ String c "")%string, items)
  | Colon k =>
      if is_space c then st
      else if Ascii.eqb c ":" then (Value k, items) else (Broken, items)
  | Value k =>
      if is_space c then st
      else if Ascii.eqb c dquote then (InValue k "", items)
      else (Broken, items)
  | InValue k v =>
      if Ascii.eqb c dquote then (Comma, items ++ [(k, PStr v)])
      else (InValue k (v ++ String c "")%string, items)
  | Comma =>
      if is_space c then st
      else if Ascii.eqb c "," then (Key, items)
      else if Ascii.eqb c "}" then (Closed, items) else (Broken, items)
  | Closed => if is_space c then st else (Broken, items)
  | Broken => st
  end.

Fixpoint read_from (st : reader * dict) (s : string) : reader * dict :=
  match s with
  | EmptyString => st
  | String c s' => read_from (read_char st c) s'
  end.

Definition loads_flat (text : string) : option dict :=
  match read_from (Start, []) text with
  | (Start, _) | (Broken, _) => None
  | (InValue k v, items) => Some (items ++ [(k, PStr v)])
  | (_, items) => Some items
  end.

(** Two flat dictionaries are the same when they hold the same strings under
    the same keys, in the same order. *)
Fixpoint flat_same (a b : dict) : bool :=
  match a, b with
  | [], [] => true
  | (k, PStr v) :: a', (k', PStr v') :: b' =>
      String.eqb k k' && String.eqb v v' && flat_same a' b'
  | _, _ => false
  end.

(** A text written with ['] where JSON has a double quote. *)
Fixpoint quoted (s : string) : string :=
  match s with
  | EmptyString => EmptyString
  | String c s' =>
      String (if Ascii.eqb c "'" then dquote else c) (quoted s')
  end.

(** Outputs of the model, in chunks, that stream as the notebook records. *)
Definition json_chunks : list string :=
  map quoted
      ["{"; "'answer'"; ": '"; "Ant"; "on"; "ie"; " van"; " Lee"; "u"; "wen";
       "ho"; "ek"; "'"; "}"].

Definition joke_chunks : list string :=
  map quoted
      ["{'setup': 'Why"; " did the tomato turn red"; "?'"; ", 'punchline': '";
       "Because"; " it"; " saw"; " the"; " salad"; " dressing"; "!"; "'";
       "}"].

End Streaming.

(** * Properties *)

(** ** Python values *)

Module PyFacts.
Import Py.

Lemma seq_index_nil {A} (i : Z) : seq_index (@nil A) i = None.
Proof.
  unfold seq_index; simpl.
  destruct (Z.ltb_spec i 0).
  - rewrite Z.add_0_r. destruct (Z.ltb_spec i 0); [reflexivity | lia].
  - destruct (Z.leb_spec 0 i); [|lia].
    now rewrite orb_true_r.
Qed.

(** Index [-1] selects the last element. *)
Lemma seq_index_last {A} (l : list A) (x : A) :
  seq_index (l ++ [x]) (-1) = Some x.
Proof.
  unfold seq_index.
  assert (Hn : Z.of_nat (length (l ++ [x])) = (Z.of_nat (length l) + 1)%Z)
    by (rewrite length_app, Nat2Z.inj_add; reflexivity).
  rewrite Hn. change (-1 <? 0)%Z with true. cbv beta iota zeta.
  replace (-1 + (Z.of_nat (length l) + 1))%Z with (Z.of_nat (length l)) by lia.
  destruct (Z.ltb_spec (Z.of_nat (length l)) 0); [lia|].
  destruct (Z.leb_spec (Z.of_nat (length l) + 1) (Z.of_nat (length l))); [lia|].
  cbn [orb]. rewrite Nat2Z.id, nth_error_app2 by lia.
  now rewrite Nat.sub_diag.
Qed.

(** A non-empty string is its front followed by its last character. *)
Lemma last_char_snoc (s : string) (c : ascii) :
  last_char s = Some c ->
  exists front, list_ascii_of_string s = front ++ [c].
Proof.
  induction s as [|a s IH]; simpl; [discriminate|].
  destruct s as [|b s'].
  - intros [= ->]. now exists [].
  - intros H. destruct (IH H) as [front Hf].
    exists (a :: front). simpl in *. now rewrite Hf.
Qed.

Lemma last_char_none (s : string) : last_char s = None <-> s = "".
Proof.
  split; [|now intros ->].
  induction s as [|a s IH]; [reflexivity|]. simpl.
  destruct s; [discriminate|]. intros H. now specialize (IH H).
Qed.

(** [s[-1]] is the last character of a non-empty [s]. *)
Lemma getitem_str_last (s : string) (c : ascii) :
  last_char s = Some c -> getitem (PStr s) (-1) = Ok (PStr (String c "")).
Proof.
  intros H. destruct (last_char_snoc s c H) as [front Hf].
  unfold getitem. now rewrite Hf, seq_index_last.
Qed.

Lemma truthy_str (s : string) : truthy (PStr s) = true <-> s <> "".
Proof.
  simpl. rewrite negb_true_iff. split.
  - intros H ->. now rewrite String.eqb_refl in H.
  - intros H. destruct (String.eqb_spec s ""); congruence.
Qed.

Lemma ne_str_char (c : ascii) :
  ne_str (PStr (String c "")) "?" = negb (Ascii.eqb c "?").
Proof. simpl. now destruct (Ascii.eqb c "?"). Qed.

End PyFacts.

(** ** The schema and its validator *)

Module StructuredFacts.
Import Py PyFacts Structured.
Local Open Scope py_scope.

Lemma question_or_empty_dec (s : string) :
  {question_or_empty s} + {s <> "" /\ last_char s <> Some "?"%char}.
Proof.
  unfold question_or_empty.
  destruct (last_char s) as [c|] eqn:E.
  - destruct (Ascii.eqb_spec c "?") as [->|Hc].
    + left. now right.
    + right. split.
      * intros ->. discriminate.
      * congruence.
  - left. left. now apply last_char_none.
Qed.

(** The validator on a string: it raises when the string is non-empty and
    does not end with a question mark. *)
Lemma validator_str_raises (values : dict) (s : string) :
  dict_lookup values "setup" = Some (PStr s) ->
  s <> "" -> last_char s <> Some "?"%char ->
  question_ends_with_question_mark values = Raise badly_formed.
Proof.
  intros Hs Hne Hlast.
  unfold question_ends_with_question_mark, ret, dict_get. rewrite Hs.
  rewrite (proj2 (truthy_str s) Hne).
  destruct (last_char s) as [c|] eqn:E.
  - rewrite (getitem_str_last s c E). cbn [bind ret].
    rewrite ne_str_char.
    destruct (Ascii.eqb_spec c "?") as [->|Hc]; [congruence|reflexivity].
  - apply last_char_none in E. contradiction.
Qed.

(** ... and returns its input otherwise. *)
Lemma validator_str_returns (values : dict) (s : string) :
  dict_lookup values "setup" = Some (PStr s) ->
  question_or_empty s ->
  question_ends_with_question_mark values = Ok values.
Proof.
  intros Hs [->|Hq];
    unfold question_ends_with_question_mark, ret, dict_get; rewrite Hs.
  - reflexivity.
  - assert (Hne : s <> "") by (intros ->; discriminate).
    rewrite (proj2 (truthy_str s) Hne), (getitem_str_last s _ Hq).
    reflexivity.
Qed.

Lemma validator_absent (values : dict) :
  dict_lookup values "setup" = None ->
  question_ends_with_question_mark values = Ok values.
Proof.
  intros H. unfold question_ends_with_question_mark, ret, dict_get.
  now rewrite H.
Qed.

Lemma validator_none (values : dict) :
  dict_lookup values "setup" = Some PNone ->
  question_ends_with_question_mark values = Ok values.
Proof.
  intros H. unfold question_ends_with_question_mark, ret, dict_get.
  now rewrite H.
Qed.

(** The validator never changes the dictionary. *)
Lemma validator_returns_input (values d : dict) :
  question_ends_with_question_mark values = Ok d -> d = values.
Proof.
  unfold question_ends_with_question_mark, ret.
  destruct (truthy (dict_get values "setup")).
  - destruct (getitem (dict_get values "setup") (-1)) as [x|e]; cbn [bind ret].
    + destruct (truthy (PBool (ne_str x "?"))); congruence.
    + discriminate.
  - cbn [bind ret]. destruct (truthy (dict_get values "setup")); congruence.
Qed.

(** Indexing raises nothing but [TypeError], [IndexError] and [KeyError]. *)
Lemma getitem_raise (v : pyval) (i : Z) (e : exn) :
  getitem v i = Raise e -> raised_by e = ValidatorExpression.
Proof.
  destruct v; simpl; try (intros [= <-]; reflexivity).
  - destruct (seq_index (list_ascii_of_string s) i);
      intros [= <-]; reflexivity.
  - destruct (seq_index elts i); intros [= <-]; reflexivity.
Qed.

(** The validator raises [ValueError] exactly when its test holds. *)
Lemma validator_raises_iff (values : dict) :
  question_ends_with_question_mark values = Raise badly_formed
  <-> test_holds values.
Proof.
  unfold question_ends_with_question_mark, ret, test_holds.
  destruct (truthy (dict_get values "setup")) eqn:T.
  - destruct (getitem (dict_get values "setup") (-1)) as [x|e] eqn:G;
      cbn [bind ret truthy].
    + destruct (ne_str x "?") eqn:N.
      * split; [|reflexivity]. intros _. split; [reflexivity|]. now exists x.
      * split; [discriminate|]. intros [_ [y [[= <-] Hy]]]. congruence.
    + split.
      * intros [= ->]. apply getitem_raise in G. discriminate.
      * intros [_ [y [[=] _]]].
  - cbn [bind ret]. rewrite T.
    split; [discriminate|]. intros [[=] _].
Qed.

(** An exception of the validator comes from the validator. *)
Lemma validator_raise_origin (values : dict) (e : exn) :
  question_ends_with_question_mark values = Raise e ->
  raised_by e <> LibraryValidation.
Proof.
  unfold question_ends_with_question_mark, ret.
  destruct (truthy (dict_get values "setup")) eqn:T.
  - destruct (getitem (dict_get values "setup") (-1)) as [x|e'] eqn:G;
      cbn [bind ret truthy].
    + destruct (ne_str x "?"); [intros [= <-]|]; discriminate.
    + intros [= <-]. now rewrite (getitem_raise _ _ _ G).
  - cbn [bind ret]. rewrite T. discriminate.
Qed.

Lemma str_field_raise (values : dict) (name : string) (e : exn) :
  str_field values name = Raise e -> raised_by e = LibraryValidation.
Proof.
  unfold str_field.
  destruct (dict_lookup values name) as [[]|]; intros [= <-]; reflexivity.
Qed.

Lemma str_field_ok (values : dict) (name s : string) :
  str_field values name = Ok s <-> dict_lookup values name = Some (PStr s).
Proof.
  unfold str_field.
  destruct (dict_lookup values name) as [[]|]; split; congruence.
Qed.

(** A successful validation: the validator returned and both fields hold
    strings, which the instance takes over. *)
Lemma model_validate_ok (values : dict) (j : Joke) :
  model_validate values = Ok j <->
  question_ends_with_question_mark values = Ok values
  /\ dict_lookup values "setup" = Some (PStr (setup j))
  /\ dict_lookup values "punchline" = Some (PStr (punchline j)).
Proof.
  unfold model_validate, ret. split.
  - destruct (question_ends_with_question_mark values) as [d|e] eqn:V;
      cbn [bind]; [|discriminate].
    apply validator_returns_input in V as ->.
    destruct (str_field values "setup") as [s|e] eqn:S; cbn [bind];
      [|discriminate].
    destruct (str_field values "punchline") as [p|e] eqn:P; cbn [bind ret];
      [|discriminate].
    intros [= <-]. simpl. apply str_field_ok in S, P. auto.
  - intros (V & S & P). rewrite V. cbn [bind].
    apply str_field_ok in S, P. rewrite S, P. cbn [bind ret].
    now destruct j.
Qed.

(** The validator on values that are not strings: a list is judged by its
    last element, a number other than zero cannot be indexed. *)
Lemma validator_list_setup (values : dict) (front : list pyval) (x : pyval) :
  dict_lookup values "setup" = Some (PList (front ++ [x])) ->
  question_ends_with_question_mark values
  = if ne_str x "?" then Raise badly_formed else Ok values.
Proof.
  intros H. unfold question_ends_with_question_mark, ret, dict_get.
  rewrite H.
  assert (T : truthy (PList (front ++ [x])) = true)
    by (destruct front; reflexivity).
  rewrite T. unfold getitem. rewrite seq_index_last. cbn [bind truthy].
  now destruct (ne_str x "?").
Qed.

Lemma validator_int_setup (values : dict) (z : Z) :
  dict_lookup values "setup" = Some (PInt z) -> z <> 0%Z ->
  question_ends_with_question_mark values
  = Raise (TypeError "object is not subscriptable").
Proof.
  intros H Hz. unfold question_ends_with_question_mark, ret, dict_get.
  rewrite H. simpl truthy.
  destruct (Z.eqb_spec z 0); [contradiction|reflexivity].
Qed.

(** The instance the notebook records passes the validator. *)
Example recorded_joke_admissible :
  Joke_init "Why did the tomato turn red?" "Because it saw the salad dressing!"
  = Ok (mkJoke "Why did the tomato turn red?"
               "Because it saw the salad dressing!").
Proof. reflexivity. Qed.

(** *** The validator *)

(** C5, as stated, fails on setups that are not strings: a non-empty list
    whose last element is not ["?"] raises the same [ValueError] although the
    setup is no string, and a non-zero number is not returned unchanged but
    raises [TypeError]. *)
Lemma validator_non_str_setup :
  question_ends_with_question_mark [("setup", PList [PStr "Why"])]
    = Raise badly_formed
  /\ ~ unfinished_question [("setup", PList [PStr "Why"])]
  /\ question_ends_with_question_mark [("setup", PInt 5)]
    = Raise (TypeError "object is not subscriptable")
  /\ ~ unfinished_question [("setup", PInt 5)].
Proof.
  repeat split; try reflexivity.
  - intros [s [E _]]. discriminate E.
  - intros [s [E _]]. discriminate E.
Qed.

(** C5 (amended): for every input dict whose ["setup"] entry is absent,
    [None] or a string, the pre-validator raises
    [ValueError("Badly formed question!")] if and only if the entry is a
    non-empty string whose last character is not ["?"]; it raises nothing
    else, and in every other case it returns the input dict unchanged.
    Parsing succeeds only for setups that are empty or end with a question
    mark. *)
Theorem validator_on_str_setup (values : dict) :
  setup_absent_or_str values ->
  (question_ends_with_question_mark values = Raise badly_formed
   <-> unfinished_question values)
  /\ (forall e, question_ends_with_question_mark values = Raise e ->
                e = badly_formed)
  /\ (~ unfinished_question values ->
      question_ends_with_question_mark values = Ok values)
  /\ (forall j, model_validate values = Ok j -> question_or_empty (setup j)).
Proof.
  intros Hdom.
  assert (Hcases : question_ends_with_question_mark values = Ok values
                   /\ ~ unfinished_question values
                   \/ question_ends_with_question_mark values
                      = Raise badly_formed
                      /\ unfinished_question values).
  { destruct Hdom as [Ha|[Hn|[s Hs]]].
    - left. split; [now apply validator_absent|].
      intros [s [E _]]. congruence.
    - left. split; [now apply validator_none|].
      intros [s [E _]]. congruence.
    - destruct (question_or_empty_dec s) as [Hq|[Hne Hl]].
      + left. split; [now apply (validator_str_returns values s)|].
        intros [t [E [Hne Hl]]]. rewrite Hs in E. injection E as <-.
        destruct Hq; contradiction.
      + right. split; [now apply (validator_str_raises values s)|].
        now exists s. }
  repeat split.
  - destruct Hcases as [[V N]|[V U]]; [congruence|auto].
  - destruct Hcases as [[V N]|[V U]]; [contradiction|auto].
  - destruct Hcases as [[V N]|[V U]]; congruence.
  - destruct Hcases as [[V N]|[V U]]; [auto|contradiction].
  - intros j Hj. apply model_validate_ok in Hj as (V & S & _).
    destruct (question_or_empty_dec (setup j)) as [Hq|[Hne Hl]]; [exact Hq|].
    rewrite (validator_str_raises values (setup j) S Hne Hl) in V.
    discriminate.
Qed.

Lemma validator_on_str_setup_witness :
  setup_absent_or_str [("setup", PStr "Knock knock")]
  /\ (question_ends_with_question_mark [("setup", PStr "Knock knock")]
      = Raise badly_formed
      <-> unfinished_question [("setup", PStr "Knock knock")]).
Proof.
  assert (H : setup_absent_or_str [("setup", PStr "Knock knock")])
    by (right; right; exists "Knock knock"; reflexivity).
  split; [exact H|].
  exact (proj1 (validator_on_str_setup [("setup", PStr "Knock knock")] H)).
Defined.

(** *** Instances of the schema *)

(** C2, as stated, fails: no instance is admissible for the setup
    ["Knock knock"]. *)
Lemma Joke_init_rejects :
  Joke_init "Knock knock" "Who is there" = Raise badly_formed
  /\ ~ (forall s p, exists j, Joke_init s p = Ok j).
Proof.
  split; [reflexivity|].
  intros H. destruct (H "Knock knock" "Who is there") as [j Hj].
  discriminate Hj.
Qed.

Lemma Joke_init_cases (s p : string) :
  question_or_empty s /\ Joke_init s p = Ok (mkJoke s p)
  \/ ~ question_or_empty s /\ Joke_init s p = Raise badly_formed.
Proof.
  unfold Joke_init.
  destruct (question_or_empty_dec s) as [Hq|[Hne Hl]].
  - left. split; [exact Hq|].
    apply model_validate_ok. repeat split.
    apply (validator_str_returns _ s); [reflexivity|exact Hq].
  - right. split.
    + intros [E|E]; contradiction.
    + unfold model_validate.
      rewrite (validator_str_raises _ s); [reflexivity|reflexivity|auto|auto].
Qed.

(** C2 (amended): the schema carries one invariant, which its pre-validator
    enforces: for every pair of strings, an instance with these field values
    is admissible if and only if the setup is empty or ends with a question
    mark (otherwise its construction raises
    [ValueError("Badly formed question!")]); the punchline is unconstrained,
    and an admissible instance holds exactly the two given values. *)
Theorem Joke_admissible (s p : string) :
  ((exists j, Joke_init s p = Ok j) <-> question_or_empty s)
  /\ (forall j, Joke_init s p = Ok j -> j = mkJoke s p)
  /\ (~ question_or_empty s -> Joke_init s p = Raise badly_formed)
  /\ (forall p', (exists j, Joke_init s p = Ok j)
                 <-> (exists j, Joke_init s p' = Ok j)).
Proof.
  assert (Hiff : forall q, (exists j, Joke_init s q = Ok j)
                           <-> question_or_empty s).
  { intros q. destruct (Joke_init_cases s q) as [[Hq E]|[Hq E]].
    - split; [auto|]. intros _. now exists (mkJoke s q).
    - split; [|contradiction]. intros [j Hj]. congruence. }
  repeat split.
  - apply Hiff.
  - apply Hiff.
  - intros j Hj. destruct (Joke_init_cases s p) as [[_ E]|[_ E]]; congruence.
  - intros Hq. destruct (Joke_init_cases s p) as [[Hq' _]|[_ E]];
      [contradiction|exact E].
  - intros H. apply Hiff. now apply Hiff in H.
  - intros H. apply Hiff. now apply Hiff in H.
Qed.

Lemma Joke_admissible_witness :
  Joke_init "Knock knock" "Who is there" = Raise badly_formed.
Proof.
  apply (Joke_admissible "Knock knock" "Who is there").
  intros [E|E]; discriminate E.
Defined.

(** *** Where a failure of parsing comes from *)

(** C4, as stated, fails: parsing this output fails with the exception of
    the [raise] statement of the notebook's own validator. *)
Lemma parse_failure_from_validator :
  model_validate [("setup", PStr "Knock knock");
                  ("punchline", PStr "Who is there")]
    = Raise badly_formed
  /\ raised_by badly_formed = ValidatorRaise
  /\ defined_in_repository (raised_by badly_formed) = true
  /\ ~ (forall values e, model_validate values = Raise e ->
                         raised_by e = LibraryValidation).
Proof.
  repeat split.
  intros H.
  specialize (H [("setup", PStr "Knock knock");
                 ("punchline", PStr "Who is there")] badly_formed eq_refl).
  discriminate H.
Qed.

Lemma model_validate_raise (values : dict) (e : exn) :
  model_validate values = Raise e ->
  question_ends_with_question_mark values = Raise e
  \/ question_ends_with_question_mark values = Ok values
     /\ raised_by e = LibraryValidation.
Proof.
  unfold model_validate, ret.
  destruct (question_ends_with_question_mark values) as [d|e'] eqn:V;
    cbn [bind].
  - apply validator_returns_input in V as ->. intros H. right.
    split; [reflexivity|].
    destruct (str_field values "setup") as [s|e1] eqn:S; cbn [bind] in H.
    + destruct (str_field values "punchline") as [p|e2] eqn:P;
        cbn [bind] in H; [discriminate|].
      injection H as <-. exact (str_field_raise _ _ _ P).
    + injection H as <-. exact (str_field_raise _ _ _ S).
  - intros [= <-]. now left.
Qed.

End StructuredFacts.

(** ** The code of the notebooks *)

Module NotebookFacts.
Import Py PyFacts PyAst Structured StructuredFacts.

(** Running the transcribed definition of the validator on a dictionary is
    the function [question_ends_with_question_mark]. *)
Lemma validator_def_runs (values : dict) :
  call_classmethod StructuredSrc.question_ends_with_question_mark_def
                   [PDict values]
  = outcome_of (question_ends_with_question_mark values).
Proof.
  unfold question_ends_with_question_mark, ret.
  cbn -[getitem truthy dict_get].
  destruct (truthy (dict_get values "setup")) eqn:T.
  - destruct (getitem (dict_get values "setup") (-1)) as [x|e]; cbn [bind].
    + cbn -[ne_str]. now destruct (ne_str x "?").
    + reflexivity.
  - cbn -[truthy dict_get]. rewrite !T. reflexivity.
Qed.

Lemma validator_returns_iff (values : dict) :
  question_ends_with_question_mark values = Ok values <-> test_fails values.
Proof.
  unfold question_ends_with_question_mark, ret, test_fails.
  destruct (truthy (dict_get values "setup")) eqn:T.
  - destruct (getitem (dict_get values "setup") (-1)) as [x|e] eqn:G;
      cbn [bind truthy].
    + destruct (ne_str x "?") eqn:N.
      * split; [discriminate|].
        intros [[=]|[y [[= <-] Hy]]]. congruence.
      * split; [|reflexivity]. intros _. right. now exists x.
    + split; [discriminate|]. intros [[=]|[y [[=] _]]].
  - cbn [bind]. rewrite T. split; auto.
Qed.

(** *** Control flow *)

(** C3, as stated, fails: the structured-output notebook holds a
    conditional, in the function it defines, and the result of that function
    depends on the test: it raises on one input and returns on another. *)
Lemma validator_branches :
  branch_free StructuredSrc.code = false
  /\ ~ (forall code, In code [StructuredSrc.code; HybridSrc.code] ->
                     branch_free code = true)
  /\ call_classmethod StructuredSrc.question_ends_with_question_mark_def
       [PDict [("setup", PStr "Knock knock")]]
     = Raised badly_formed
  /\ call_classmethod StructuredSrc.question_ends_with_question_mark_def
       [PDict [("setup", PStr "Who is there?")]]
     = Returned (PDict [("setup", PStr "Who is there?")]).
Proof.
  repeat split.
  intros H. specialize (H StructuredSrc.code (or_introl eq_refl)).
  discriminate H.
Qed.

(** C3 (amended): the statements that the cells of the two notebooks run are
    straight-line sequences (no conditional, loop or handler among them);
    the hybrid-search notebook has no branching at all and defines no
    function.  The structured-output notebook defines one function, the
    pre-validator [question_ends_with_question_mark] of [Joke], and its body
    holds the only conditional of the notebooks: the function raises
    [ValueError("Badly formed question!")] when the setup value is truthy
    and its last element is not ["?"], and returns its input when the setup
    value is falsy or its last element is ["?"]. *)
Theorem control_flow :
  (forall cell, In cell (StructuredSrc.cells ++ HybridSrc.cells) ->
                straight_line cell = true)
  /\ branch_free HybridSrc.code = true
  /\ function_names HybridSrc.code = []
  /\ function_defs StructuredSrc.code
     = [StructuredSrc.question_ends_with_question_mark_def]
  /\ filter is_branch (all_stmts StructuredSrc.code) = [StructuredSrc.validator_if]
  /\ filter is_branch
       (all_stmts [StructuredSrc.question_ends_with_question_mark_def])
     = [StructuredSrc.validator_if]
  /\ (forall values, test_holds values ->
        call_classmethod StructuredSrc.question_ends_with_question_mark_def
                         [PDict values]
        = Raised badly_formed)
  /\ (forall values, test_fails values ->
        call_classmethod StructuredSrc.question_ends_with_question_mark_def
                         [PDict values]
        = Returned (PDict values)).
Proof.
  split.
  { intros cell Hin. simpl in Hin.
    repeat (destruct Hin as [<-|Hin]; [reflexivity|]). contradiction. }
  repeat split.
  - intros values H. rewrite validator_def_runs.
    now rewrite (proj2 (validator_raises_iff values) H).
  - intros values H. rewrite validator_def_runs.
    now rewrite (proj2 (validator_returns_iff values) H).
Qed.

Lemma control_flow_witness :
  test_holds [("setup", PStr "Knock knock")]
  /\ call_classmethod StructuredSrc.question_ends_with_question_mark_def
       [PDict [("setup", PStr "Knock knock")]]
     = Raised badly_formed.
Proof.
  assert (H : test_holds [("setup", PStr "Knock knock")]).
  { split; [reflexivity|]. exists (PStr "k"). split; reflexivity. }
  split; [exact H|].
  exact (proj1 (proj2 (proj2 (proj2 (proj2 (proj2 (proj2 control_flow))))))
           [("setup", PStr "Knock knock")] H).
Defined.

(** *** Error raising and recovery *)

(** C4 (amended): the code of the repository implements no retry or failure
    recovery (no [try] statement in either notebook), but it does raise: the
    pre-validator of [Joke] holds the notebooks' one [raise] statement.
    When parsing a dict into the schema fails, the failure is the
    validator's [ValueError("Badly formed question!")] exactly when the
    setup value is truthy and its last element is not ["?"], and it
    originates in the library's validation of the fields exactly when the
    validator has returned its input. *)
Theorem parse_failure_origin :
  try_stmts StructuredSrc.code = []
  /\ try_stmts HybridSrc.code = []
  /\ raise_stmts HybridSrc.code = []
  /\ raise_stmts StructuredSrc.code
     = [SRaise (ECall (EName "ValueError") [Str "Badly formed question!"] [])]
  /\ forall values e,
       model_validate values = Raise e ->
       (e = badly_formed <-> test_holds values)
       /\ (raised_by e = ValidatorRaise <-> e = badly_formed)
       /\ (raised_by e = LibraryValidation
           <-> question_ends_with_question_mark values = Ok values).
Proof.
  do 4 (split; [reflexivity|]).
  intros values e H. split; [|split]; split.
  - intros ->. apply model_validate_raise in H as [V|[V O]].
    + now apply validator_raises_iff.
    + discriminate O.
  - intros T. apply validator_raises_iff in T.
    apply model_validate_raise in H as [V|[V O]]; congruence.
  - intros O. apply model_validate_raise in H as [V|[V O']]; [|congruence].
    assert (T : e = badly_formed \/ raised_by e <> ValidatorRaise).
    { revert V. unfold question_ends_with_question_mark, ret.
      destruct (truthy (dict_get values "setup")) eqn:T.
      - destruct (getitem (dict_get values "setup") (-1)) as [x|e'] eqn:G;
          cbn [bind truthy].
        + destruct (ne_str x "?"); [intros [= <-]; now left|discriminate].
        + intros [= <-]. right. now rewrite (getitem_raise _ _ _ G).
      - cbn [bind]. rewrite T. discriminate. }
    destruct T as [T|T]; [exact T|contradiction].
  - intros ->. reflexivity.
  - intros O. apply model_validate_raise in H as [V|[V _]]; [|exact V].
    apply validator_raise_origin in V. contradiction.
  - intros V. apply model_validate_raise in H as [V'|[_ O]]; [|exact O].
    congruence.
Qed.

Lemma parse_failure_origin_witness :
  model_validate [("setup", PStr "Why?")]
  = Raise (ValidationError "punchline" Missing)
  /\ (raised_by (ValidationError "punchline" Missing) = LibraryValidation
      <-> question_ends_with_question_mark [("setup", PStr "Why?")]
          = Ok [("setup", PStr "Why?")]).
Proof.
  split; [reflexivity|].
  exact (proj2 (proj2 (proj2 (proj2 (proj2 (proj2 parse_failure_origin)))
                         [("setup", PStr "Why?")]
                         (ValidationError "punchline" Missing)
                         eq_refl))).
Defined.

(** *** The operations of the parser *)

(** C6: in the structured-output notebook the methods called on [parser]
    are [get_format_instructions] (once) and [invoke] (twice) and no other;
    besides these three calls the variable is read once, as the last stage
    of [chain], and no method is called on the second parser,
    [json_parser].  The calls of [invoke] and [stream] that remain are made
    on the chains. *)
Theorem parser_operations :
  method_calls_on "parser" StructuredSrc.code
  = ["get_format_instructions"; "invoke"; "invoke"]
  /\ (forall m, In m (method_calls_on "parser" StructuredSrc.code)
                <-> m = "get_format_instructions" \/ m = "invoke")
  /\ name_uses "parser" StructuredSrc.code = 4
  /\ pipe_stages (EBinOp (EBinOp (EName "prompt") BitOr (EName "model"))
                         BitOr (EName "parser"))
     = [EName "prompt"; EName "model"; EName "parser"]
  /\ method_calls_on "json_parser" StructuredSrc.code = []
  /\ method_calls StructuredSrc.code
     = [(EName "values", "get");
        (EName "parser", "get_format_instructions");
        (EName "prompt_and_model", "invoke");
        (EName "parser", "invoke");
        (EName "parser", "invoke");
        (EName "chain", "invoke");
        (EName "PromptTemplate", "from_template");
        (EName "json_chain", "stream");
        (EName "chain", "stream")].
Proof.
  repeat split; try reflexivity.
  - simpl. intros [<-|[<-|[<-|[]]]]; auto.
  - intros [->| ->]; simpl; auto.
Qed.

(** *** The fields of the schema *)

(** C10: the class [Joke] declares exactly two fields, [setup] and
    [punchline], both annotated [str]; an instance holds two strings, and a
    dict is validated into an instance only if both entries hold strings,
    which become the fields. *)
Theorem Joke_fields :
  class_fields StructuredSrc.Joke_def
  = [("setup", EName "str"); ("punchline", EName "str")]
  /\ (forall j, model_dump j
                = [("setup", PStr (setup j)); ("punchline", PStr (punchline j))])
  /\ (forall values j,
        model_validate values = Ok j ->
        dict_lookup values "setup" = Some (PStr (setup j))
        /\ dict_lookup values "punchline" = Some (PStr (punchline j))).
Proof.
  repeat split.
  - now apply model_validate_ok in H.
  - now apply model_validate_ok in H.
Qed.

Lemma Joke_fields_witness :
  dict_lookup [("setup", PStr "Why?"); ("punchline", PStr "Because!")] "setup"
  = Some (PStr "Why?")
  /\ dict_lookup [("setup", PStr "Why?"); ("punchline", PStr "Because!")]
                 "punchline"
     = Some (PStr "Because!").
Proof.
  exact (proj2 (proj2 Joke_fields)
           [("setup", PStr "Why?"); ("punchline", PStr "Because!")]
           (mkJoke "Why?" "Because!") eq_refl).
Defined.

End NotebookFacts.

(** ** Streaming *)

Module StreamFacts.
Import Py Structured StructuredOut.

Lemma is_prefix_Prefix (p s : string) : is_prefix p s = true -> Prefix p s.
Proof.
  unfold is_prefix, Prefix. revert s.
  induction p as [|a p IH]; intros s H.
  - now exists s.
  - destruct s as [|b s]; simpl in H; [discriminate|].
    destruct (ascii_dec a b) as [->|]; [|discriminate].
    destruct (IH s H) as [rest ->]. now exists rest.
Qed.

Lemma dict_growsb_grows (d d' : dict) :
  dict_growsb d d' = true -> dict_grows d d'.
Proof.
  unfold dict_growsb, dict_grows. intros H k s Hin.
  rewrite forallb_forall in H. specialize (H _ Hin). simpl in H.
  destruct (dict_lookup d' k) as [[]|]; try discriminate.
  eexists. split; [reflexivity|]. now apply is_prefix_Prefix.
Qed.

Lemma joke_growsb_grows (j j' : Joke) :
  joke_growsb j j' = true -> joke_grows j j'.
Proof.
  unfold joke_growsb, joke_grows. intros H.
  apply andb_true_iff in H as [H1 H2].
  split; now apply is_prefix_Prefix.
Qed.

Lemma chainedb_chained {A} (r : A -> A -> bool) (R : A -> A -> Prop)
    (l : list A) :
  (forall a b, r a b = true -> R a b) ->
  chainedb r l = true -> chained R l.
Proof.
  intros Hr. unfold chained.
  induction l as [|x l IH]; intros H i a b Ha Hb.
  - destruct i; discriminate.
  - destruct l as [|y l]; [destruct i; discriminate|].
    cbn [chainedb] in H. apply andb_true_iff in H as [Hxy Hl].
    destruct i as [|i].
    + injection Ha as <-. injection Hb as <-. now apply Hr.
    + exact (IH Hl i a b Ha Hb).
Qed.

(** Every instance of the recorded stream passes the validator: a partial
    setup without its question mark is not among them. *)
Lemma streamed_jokes_admissible :
  forall j, In j out_6 ->
            model_validate (model_dump j) = Ok j.
Proof.
  intros j Hin. simpl in Hin.
  repeat (destruct Hin as [<-|Hin]; [reflexivity|]). contradiction.
Qed.

(** *** The last element of a stream *)

Lemma append_assoc (a b c : string) :
  ((a ++ b) ++ c)%string = (a ++ (b ++ c))%string.
Proof. induction a as [|x a IH]; simpl; [reflexivity|now rewrite IH]. Qed.

Lemma append_empty_right (s : string) : (s ++ "")%string = s.
Proof. induction s as [|a s IH]; simpl; [reflexivity|now rewrite IH]. Qed.

(** When the complete output parses, the element yielded last is its parse,
    or the same as its parse: a result that is not new is not yielded
    again. *)
Lemma stream_from_last {R} (same : R -> R -> bool)
    (parse : string -> option R) (chunks : list string) :
  forall prev acc r,
    chunks <> [] ->
    parse (acc ++ Streaming.joined chunks)%string = Some r ->
    exists x,
      Streaming.last_of prev (Streaming.stream_from same parse prev acc chunks)
      = Some x
      /\ (r = x \/ same r x = true).
Proof.
  induction chunks as [|c cs IH]; intros prev acc r Hne Hfull;
    [contradiction|].
  cbn [Streaming.joined] in Hfull. rewrite <- append_assoc in Hfull.
  cbn [Streaming.stream_from].
  destruct cs as [|c' cs].
  - cbn [Streaming.joined] in Hfull. rewrite append_empty_right in Hfull.
    rewrite Hfull. destruct prev as [p|]; cbn [Streaming.is_new].
    + destruct (same r p) eqn:E; cbn [negb Streaming.stream_from
                                       Streaming.last_of].
      * exists p. auto.
      * exists r. auto.
    + exists r. auto.
  - assert (Hne' : c' :: cs <> []) by discriminate.
    destruct (parse (acc ++ c)%string) as [r'|].
    + destruct (Streaming.is_new _ same prev r').
      * cbn [Streaming.last_of]. exact (IH (Some r') _ r Hne' Hfull).
      * exact (IH prev _ r Hne' Hfull).
    + exact (IH prev _ r Hne' Hfull).
Qed.

Lemma stream_last {R} (same : R -> R -> bool) (parse : string -> option R)
    (chunks : list string) (out : list R) (r : R) :
  Streaming.stream same parse chunks = out -> out <> [] ->
  Streaming.invoke parse (Streaming.joined chunks) = Some r ->
  exists x, Streaming.last_of None out = Some x
            /\ (r = x \/ same r x = true).
Proof.
  intros <- Hne Hfull.
  apply stream_from_last; [|exact Hfull].
  intros ->. now apply Hne.
Qed.

Lemma Joke_same_eq (a b : Joke) : Streaming.Joke_same a b = true -> a = b.
Proof.
  unfold Streaming.Joke_same. intros H.
  apply andb_true_iff in H as [H1 H2].
  apply String.eqb_eq in H1, H2. destruct a, b. simpl in *. congruence.
Qed.

(** C9: the two streamed sequences the notebook records grow by prefixes:
    every string field of an element is a prefix of the same field of the
    next element, for the dictionaries of [json_chain.stream] and for the
    instances of [chain.stream].  The last element of each is the parse of
    the complete output: whatever the reader of JSON and the chunks of the
    model's output are, if streaming them gives the recorded sequence and
    invoking the parser on the complete output gives a result, this result
    is the last dictionary of the recorded stream (or the same as it, for
    the comparison that tells new results), and it is the last instance of
    the recorded stream, which is the instance the notebook records for
    [parser.invoke(output)] and [chain.invoke]. *)
Theorem streams_grow :
  chained dict_grows out_5
  /\ chained joke_grows out_6
  /\ (forall (loads : string -> option dict) (same : dict -> dict -> bool)
             (chunks : list string) (r : dict),
        Streaming.stream same loads chunks = out_5 ->
        Streaming.invoke loads (Streaming.joined chunks) = Some r ->
        exists x, Streaming.last_of None out_5 = Some x
                  /\ (r = x \/ same r x = true))
  /\ (forall (loads : string -> option dict) (chunks : list string)
             (r : Joke),
        Streaming.stream Streaming.Joke_same (Streaming.pydantic_parse loads)
                         chunks = out_6 ->
        Streaming.invoke (Streaming.pydantic_parse loads)
                         (Streaming.joined chunks) = Some r ->
        Streaming.last_of None out_6 = Some r /\ r = out_1)
  /\ (exists front, out_6 = front ++ [out_1])
  /\ out_1 = out_2 /\ out_2 = out_3.
Proof.
  split; [|split; [|split; [|split; [|split; [|split; reflexivity]]]]];
    [| | | |exists (removelast out_6); reflexivity].
  - apply (chainedb_chained dict_growsb); [exact dict_growsb_grows|].
    reflexivity.
  - apply (chainedb_chained joke_growsb); [exact joke_growsb_grows|].
    reflexivity.
  - intros loads same chunks r Hs Hi.
    apply (stream_last same loads chunks out_5 r Hs); [discriminate|exact Hi].
  - intros loads chunks r Hs Hi.
    destruct (stream_last _ _ chunks out_6 r Hs) as [x [Hx Hr]];
      [discriminate|exact Hi|].
    assert (E : r = x) by (destruct Hr as [E|E]; [exact E|];
                           now apply Joke_same_eq).
    subst x. split; [exact Hx|].
    cbn in Hx. injection Hx as <-. reflexivity.
Qed.

Lemma streams_grow_witness :
  (Streaming.stream Streaming.flat_same Streaming.loads_flat
                    Streaming.json_chunks = out_5
   /\ Streaming.invoke Streaming.loads_flat
                       (Streaming.joined Streaming.json_chunks)
      = Some [("answer", PStr "Antonie van Leeuwenhoek")]
   /\ exists x,
        Streaming.last_of None out_5 = Some x
        /\ ([("answer", PStr "Antonie van Leeuwenhoek")] = x
            \/ Streaming.flat_same
                 [("answer", PStr "Antonie van Leeuwenhoek")] x = true))
  /\ (Streaming.stream Streaming.Joke_same
                       (Streaming.pydantic_parse Streaming.loads_flat)
                       Streaming.joke_chunks = out_6
      /\ Streaming.invoke (Streaming.pydantic_parse Streaming.loads_flat)
                          (Streaming.joined Streaming.joke_chunks)
         = Some (mkJoke "Why did the tomato turn red?"
                        "Because it saw the salad dressing!")
      /\ Streaming.last_of None out_6
         = Some (mkJoke "Why did the tomato turn red?"
                        "Because it saw the salad dressing!")).
Proof.
  split; (split; [reflexivity|]); (split; [reflexivity|]).
  - exact (proj1 (proj2 (proj2 streams_grow))
             Streaming.loads_flat Streaming.flat_same Streaming.json_chunks
             [("answer", PStr "Antonie van Leeuwenhoek")] eq_refl eq_refl).
  - exact (proj1 (proj1 (proj2 (proj2 (proj2 streams_grow)))
                    Streaming.loads_flat Streaming.joke_chunks
                    (mkJoke "Why did the tomato turn red?"
                            "Because it saw the salad dressing!")
                    eq_refl eq_refl)).
Defined.

End StreamFacts.

(** ** Hybrid search *)

Module HybridFacts.
Import Py PyAst Hybrid.

(** The literals of the cells are the values of the model. *)
Lemma inserted_texts_literal :
  literal (EList HybridSrc.inserted_texts) = Some (PList (map PStr texts)).
Proof. reflexivity. Qed.

Lemma search_kwargs_literal :
  literal HybridSrc.search_kwargs_new
  = Some (PDict [("body_search", PStr "new")]).
Proof. reflexivity. Qed.

Lemma config_literal :
  literal HybridSrc.config_new
  = Some (PDict (config_with [("body_search", PStr "new")])).
Proof. reflexivity. Qed.

Lemma configurable_fields_literal :
  declared_fields HybridSrc.configurable_fields_call
  = Some (fields configurable_retriever).
Proof. reflexivity. Qed.

Lemma terms_of_texts :
  map terms texts
  = [["in"; "2023"; "i"; "visited"; "paris"];
     ["in"; "2022"; "i"; "visited"; "new"; "york"];
     ["in"; "2021"; "i"; "visited"; "new"; "orleans"]].
Proof. reflexivity. Qed.

Section Retrieval.

Variable similarity_order : string -> list string -> list string.

(** Without a keyword filter every ranked text is returned. *)
Lemma similarity_search_all (store : list string) (q : string) :
  similarity_search similarity_order store q []
  = Some (map mkDocument (similarity_order q store)).
Proof. reflexivity. Qed.

(** With a keyword filter the texts returned are those of the store that
    contain the term, whatever the ranking, as long as it ranks the texts of
    the store. *)
Lemma similarity_search_term (store : list string) (q term : string) :
  Permutation (similarity_order q store) store ->
  exists docs,
    similarity_search similarity_order store q [("body_search", PStr term)]
    = Some docs
    /\ forall t, In (mkDocument t) docs
                 <-> In t store /\ contains_term term t = true.
Proof.
  intros Hperm. eexists. split; [reflexivity|].
  intros t. rewrite in_map_iff. split.
  - intros [t' [[= ->] Hin]]. apply filter_In in Hin as [Hin Hc].
    split; [|exact Hc]. exact (Permutation_in _ Hperm Hin).
  - intros [Hin Hc]. exists t. split; [reflexivity|].
    apply filter_In. split; [|exact Hc].
    exact (Permutation_in _ (Permutation_sym Hperm) Hin).
Qed.


End Retrieval.


(** *** The sequence of the notebook *)


(** *** The search parameters given at call time *)

Lemma prepare_configured (config d : dict) :
  configurable_value config "search_kwargs" = Some (PDict d) ->
  prepare configurable_retriever config = Some (mkRetriever texts d).
Proof.
  intros H. unfold prepare. cbn -[configurable_value]. now rewrite H.
Qed.

Lemma prepare_default (config : dict) :
  configurable_value config "search_kwargs" = None ->
  prepare configurable_retriever config = Some retriever.
Proof.
  intros H. unfold prepare. cbn -[configurable_value]. now rewrite H.
Qed.

(** C8: the dictionary given under the id ["search_kwargs"] in the
    configuration of a chain call is the dictionary of search parameters
    that reaches the database client, entry for entry and in the same order;
    without such an entry the client receives the empty dictionary of the
    default retriever.  The id is the one the notebook declares for the
    field [search_kwargs], and for the configuration of the notebook the
    client receives [{"body_search": "new"}]. *)
Theorem search_kwargs_pass_through :
  (forall input config d,
     configurable_value config "search_kwargs" = Some (PDict d) ->
     chain_search_call input config = Some (mkSearchCall input d))
  /\ (forall input d,
        chain_search_call input (config_with d) = Some (mkSearchCall input d))
  /\ (forall input config,
        configurable_value config "search_kwargs" = None ->
        chain_search_call input config = Some (mkSearchCall input []))
  /\ (forall d input,
        retriever_call (as_retriever texts (Some d)) input
        = mkSearchCall input d)
  /\ declared_fields HybridSrc.configurable_fields_call
     = Some (fields configurable_retriever)
  /\ literal HybridSrc.config_new
     = Some (PDict (config_with [("body_search", PStr "new")]))
  /\ chain_search_call question (config_with [("body_search", PStr "new")])
     = Some (mkSearchCall question [("body_search", PStr "new")]).
Proof.
  split; [|split; [|split; [|repeat split]]].
  - intros input config d H. unfold chain_search_call.
    now rewrite (prepare_configured config d H).
  - intros input d. reflexivity.
  - intros input config H. unfold chain_search_call.
    now rewrite (prepare_default config H).
Qed.

Lemma search_kwargs_pass_through_witness :
  chain_search_call question
    [("tags", PList []);
     ("configurable", PDict [("search_kwargs", PDict [("body_search", PStr "new")])])]
  = Some (mkSearchCall question [("body_search", PStr "new")]).
Proof.
  exact (proj1 search_kwargs_pass_through question
           [("tags", PList []);
            ("configurable",
             PDict [("search_kwargs", PDict [("body_search", PStr "new")])])]
           [("body_search", PStr "new")] eq_refl).
Defined.

End HybridFacts.

(** ** More on the validator *)

Module ValidatorFacts.
Import Py PyFacts Structured StructuredFacts StructuredOut Text.
Local Open Scope py_scope.

(** Indexing a truthy value at [-1] finds an element, or fails because the
    value is no sequence: the index is never out of range. *)
Lemma getitem_truthy (v : pyval) :
  truthy v = true ->
  (exists x, getitem v (-1) = Ok x)
  \/ (exists m, getitem v (-1) = Raise (TypeError m))
  \/ getitem v (-1) = Raise (KeyError (-1)).
Proof.
  destruct v as [|b|z|f|s|elts|items]; intros T; try discriminate T.
  - right. left. now eexists.
  - right. left. now eexists.
  - right. left. now eexists.
  - left. destruct (last_char s) as [c|] eqn:E.
    + eexists. exact (getitem_str_last s c E).
    + apply last_char_none in E. subst s. discriminate T.
  - left. destruct elts as [|a elts]; [discriminate T|].
    destruct (@exists_last _ (a :: elts)) as [front [x E]]; [discriminate|].
    exists x. unfold getitem. now rewrite E, seq_index_last.
  - right. right. reflexivity.
Qed.

(** X1: the exceptions of the validator, for every input dict: the
    [ValueError] of its [raise] statement, a [TypeError] (the setup is a
    number or [True], which cannot be indexed) or [KeyError(-1)] (the setup
    is a non-empty dict).  The test [setup and ...] keeps [setup[-1]] from an
    empty string or list, so no [IndexError] is raised. *)
Theorem validator_exceptions (values : dict) (e : exn) :
  question_ends_with_question_mark values = Raise e ->
  (e = badly_formed \/ (exists m, e = TypeError m) \/ e = KeyError (-1))
  /\ (forall m, e <> IndexError m)
  /\ truthy (dict_get values "setup") = true.
Proof.
  unfold question_ends_with_question_mark, ret.
  destruct (truthy (dict_get values "setup")) eqn:T.
  - destruct (getitem_truthy _ T) as [[x G]|[[m G]| G]];
      rewrite G; cbn [bind truthy].
    + destruct (ne_str x "?"); [|discriminate].
      intros [= <-]. repeat split; [now left|discriminate].
    + intros [= <-]. repeat split; [right; left; now exists m|discriminate].
    + intros [= <-]. repeat split; [now right; right|discriminate].
  - cbn [bind]. rewrite T. discriminate.
Qed.

Lemma validator_exceptions_witness :
  question_ends_with_question_mark [("setup", PInt 5)]
  = Raise (TypeError "object is not subscriptable")
  /\ forall m, TypeError "object is not subscriptable" <> IndexError m.
Proof.
  split; [reflexivity|].
  exact (proj1 (proj2 (validator_exceptions [("setup", PInt 5)]
                         (TypeError "object is not subscriptable") eq_refl))).
Defined.

(** X2: the validator by the kind of the setup value.  A falsy setup of any type
    ([None], [False], [0], [0.0], the empty string, list or dict, or no
    entry) is let through; a non-empty list is judged by its last element,
    so a list that ends with ["?"] is let through as well; [True] and the
    numbers other than zero raise [TypeError], a non-empty dict raises
    [KeyError(-1)]: none of these is reported as a badly formed
    question. *)
Theorem validator_by_setup_kind (values : dict) :
  (truthy (dict_get values "setup") = false ->
   question_ends_with_question_mark values = Ok values)
  /\ (forall front x,
        dict_get values "setup" = PList (front ++ [x]) ->
        question_ends_with_question_mark values
        = if ne_str x "?" then Raise badly_formed else Ok values)
  /\ (dict_get values "setup" = PBool true ->
      exists m, question_ends_with_question_mark values = Raise (TypeError m))
  /\ (forall z, dict_get values "setup" = PInt z -> z <> 0%Z ->
      exists m, question_ends_with_question_mark values = Raise (TypeError m))
  /\ (forall f, dict_get values "setup" = PFloat f ->
      truthy (PFloat f) = true ->
      exists m, question_ends_with_question_mark values = Raise (TypeError m))
  /\ (forall kv items, dict_get values "setup" = PDict (kv :: items) ->
      question_ends_with_question_mark values = Raise (KeyError (-1))).
Proof.
  unfold question_ends_with_question_mark, ret.
  split; [|split; [|split; [|split; [|split]]]].
  - intros T. rewrite T. cbn [bind]. now rewrite T.
  - intros front x E. rewrite E.
    assert (T : truthy (PList (front ++ [x])) = true)
      by (destruct front; reflexivity).
    rewrite T. unfold getitem. rewrite seq_index_last. cbn [bind truthy].
    now destruct (ne_str x "?").
  - intros E. rewrite E. now eexists.
  - intros z E Hz. rewrite E. simpl truthy.
    destruct (Z.eqb_spec z 0); [contradiction|]. now eexists.
  - intros f E T. rewrite E, T. now eexists.
  - intros kv items E. now rewrite E.
Qed.

Lemma validator_by_setup_kind_witness :
  question_ends_with_question_mark
    [("setup", PList [PStr "Why did the tomato turn red"; PStr "?"])]
  = Ok [("setup", PList [PStr "Why did the tomato turn red"; PStr "?"])].
Proof.
  exact (proj1 (proj2 (validator_by_setup_kind
                         [("setup", PList [PStr "Why did the tomato turn red";
                                           PStr "?"])]))
               [PStr "Why did the tomato turn red"] (PStr "?") eq_refl).
Defined.

(** X3: the validator looks at the ["setup"] entry and at nothing else: two
    dicts with the same setup value (absent counting as [None]) raise the
    same exception or are both returned, whatever their other entries; and a
    dict that is returned is returned as it was given, for every input. *)
Theorem validator_reads_setup_only (v1 v2 : dict) :
  dict_get v1 "setup" = dict_get v2 "setup" ->
  (forall e, question_ends_with_question_mark v1 = Raise e
             <-> question_ends_with_question_mark v2 = Raise e)
  /\ (question_ends_with_question_mark v1 = Ok v1
      <-> question_ends_with_question_mark v2 = Ok v2)
  /\ (forall d, question_ends_with_question_mark v1 = Ok d -> d = v1).
Proof.
  intros E. split; [|split].
  - intros e. unfold question_ends_with_question_mark, ret. rewrite E.
    destruct (truthy (dict_get v2 "setup")) eqn:T.
    + destruct (getitem (dict_get v2 "setup") (-1)) as [x|e'];
        cbn [bind truthy]; [|tauto].
      destruct (ne_str x "?"); [tauto|]. split; discriminate.
    + cbn [bind]. rewrite T. split; discriminate.
  - unfold question_ends_with_question_mark, ret. rewrite E.
    destruct (truthy (dict_get v2 "setup")) eqn:T.
    + destruct (getitem (dict_get v2 "setup") (-1)) as [x|e'];
        cbn [bind truthy]; [|split; discriminate].
      destruct (ne_str x "?"); [split; discriminate|tauto].
    + cbn [bind]. rewrite T. tauto.
  - intros d. apply validator_returns_input.
Qed.

Lemma validator_reads_setup_only_witness :
  question_ends_with_question_mark
    [("punchline", PInt 7); ("setup", PStr "Knock knock")]
  = Raise badly_formed
  <-> question_ends_with_question_mark [("setup", PStr "Knock knock")]
      = Raise badly_formed.
Proof.
  exact (proj1 (validator_reads_setup_only
                  [("punchline", PInt 7); ("setup", PStr "Knock knock")]
                  [("setup", PStr "Knock knock")] eq_refl) badly_formed).
Defined.

(** *** Partial setups *)

Lemma append_empty (s : string) : (s ++ "")%string = s.
Proof. induction s as [|a s IH]; simpl; [reflexivity|now rewrite IH]. Qed.

Lemma last_char_app (s1 s2 : string) :
  s2 <> "" -> last_char (s1 ++ s2) = last_char s2.
Proof.
  intros H. induction s1 as [|a s1 IH]; [reflexivity|].
  cbn [append last_char]. rewrite <- IH.
  destruct (s1 ++ s2)%string eqn:E; [|reflexivity].
  destruct s1; simpl in E; [contradiction|discriminate].
Qed.

Lemma count_char_app (c : ascii) (s1 s2 : string) :
  count_char c (s1 ++ s2) = count_char c s1 + count_char c s2.
Proof.
  induction s1 as [|a s1 IH]; simpl; [reflexivity|]. rewrite IH. lia.
Qed.

Lemma last_char_counted (c : ascii) (s : string) :
  last_char s = Some c -> 1 <= count_char c s.
Proof.
  induction s as [|a s IH]; [discriminate|]. cbn [last_char count_char].
  destruct s as [|b s].
  - intros [= ->]. rewrite Ascii.eqb_refl. simpl. lia.
  - intros H. specialize (IH H). lia.
Qed.

(** X5: streaming and the validator.  For a setup that ends with its only
    question mark, the prefixes from which an instance can be built are the
    empty one and the whole setup: every partial setup in between is
    rejected by the validator, whatever the punchline. *)
Theorem partial_setups_rejected (s p q : string) :
  last_char s = Some "?"%char ->
  count_char "?" s = 1 ->
  Prefix p s ->
  ((exists j, Joke_init p q = Ok j) <-> p = "" \/ p = s).
Proof.
  intros Hlast Hcount [rest ->].
  destruct (Joke_init_cases p q) as [[Hq E]|[Hq E]].
  - split; [intros _|intros _; now exists (mkJoke p q)].
    destruct Hq as [->|Hp]; [now left|]. right.
    destruct (string_dec rest "") as [->|Hrest];
      [now rewrite append_empty|].
    exfalso.
    rewrite (last_char_app p rest Hrest) in Hlast.
    apply last_char_counted in Hp, Hlast.
    rewrite count_char_app in Hcount. lia.
  - split; [intros [j Hj]; congruence|].
    intros [->|Hp]; exfalso; apply Hq.
    + now left.
    + right. now rewrite Hp.
Qed.

Lemma partial_setups_rejected_witness :
  ~ exists j, Joke_init "Why did the tomato" "Because" = Ok j.
Proof.
  intros H.
  apply (partial_setups_rejected "Why did the tomato turn red?"
           "Why did the tomato" "Because" eq_refl eq_refl
           (ex_intro _ " turn red?" eq_refl)) in H.
  destruct H as [H|H]; discriminate H.
Defined.

(** X6: every instance the notebook records, as the result of a parse or as
    an element of the stream, is accepted by the validator and holds the
    complete setup, which ends with its only question mark; the recorded
    stream starts with an empty punchline and not with a partial setup. *)
Theorem recorded_instances_admissible :
  forall j, In j (out_1 :: out_2 :: out_3 :: out_6) ->
    Joke_init (setup j) (punchline j) = Ok j
    /\ setup j = "Why did the tomato turn red?"
    /\ last_char (setup j) = Some "?"%char
    /\ count_char "?" (setup j) = 1
    /\ Prefix (punchline j) (punchline out_1).
Proof.
  intros j Hin. simpl in Hin.
  repeat (destruct Hin as [<-|Hin];
          [repeat split; apply StreamFacts.is_prefix_Prefix; reflexivity|]).
  contradiction.
Qed.

Lemma recorded_instances_admissible_witness :
  Joke_init "Why did the tomato turn red?" "Because it saw"
  = Ok (mkJoke "Why did the tomato turn red?" "Because it saw").
Proof.
  apply (recorded_instances_admissible
           (mkJoke "Why did the tomato turn red?" "Because it saw")).
  simpl. tauto.
Defined.

End ValidatorFacts.

(** ** Names and prompt variables *)

Module WiringFacts.
Import PyAst Scope Prompts Text.

(** Running two pieces of code one after the other: the second starts from
    the names the first leaves bound. *)
Lemma scoped_code_app (env : list string) (c1 c2 : list stmt) :
  scoped_code env (c1 ++ c2)
  = scoped_code env c1 && scoped_code (bound_after env c1) c2.
Proof.
  revert env. induction c1 as [|s c1 IH]; intros env; [reflexivity|].
  cbn [app scoped_code bound_after]. rewrite IH. now rewrite andb_assoc.
Qed.

Lemma bound_after_app (env : list string) (c1 c2 : list stmt) :
  bound_after env (c1 ++ c2) = bound_after (bound_after env c1) c2.
Proof.
  revert env. induction c1 as [|s c1 IH]; intros env; [reflexivity|].
  cbn [app bound_after]. apply IH.
Qed.

(** Cells run in order: each cell is checked from the names the cells
    before it leave bound. *)
Lemma scoped_cells (env : list string) (cells : list (list stmt)) :
  scoped_code env (concat cells) = true <->
  forall front cell back,
    cells = front ++ cell :: back ->
    scoped_code (bound_after env (concat front)) cell = true.
Proof.
  revert env. induction cells as [|c cells IH]; intros env.
  - split; [|reflexivity]. intros _ [|] ? ? E; discriminate E.
  - cbn [concat]. rewrite scoped_code_app, andb_true_iff, IH. split.
    + intros [Hc Hrest] front cell back E.
      destruct front as [|c' front].
      * injection E as <- <-. exact Hc.
      * injection E as <- ->. cbn [concat]. rewrite bound_after_app.
        now apply (Hrest front cell back).
    + intros H. split.
      * exact (H [] c cells eq_refl).
      * intros front cell back ->.
        specialize (H (c :: front) cell back eq_refl).
        cbn [concat] in H. now rewrite bound_after_app in H.
Qed.

(** X7: run in the order of the cells, the statements of both notebooks read
    only names that an import, an assignment or a definition has bound
    before, or one of the builtins [str], [dict], [list], [classmethod] and
    [ValueError].  The cells are not independent: in the structured-output
    notebook every cell after the first reads a name of an earlier cell, in
    the hybrid-search notebook every cell from the first retrieval on,
    except the cell of imports.  The body of the validator reads its
    parameter, its local variable and [ValueError], and no name of the
    notebook. *)
Theorem notebooks_scoped :
  (forall front cell back,
     StructuredSrc.cells = front ++ cell :: back ->
     scoped_code (bound_after builtins (concat front)) cell = true)
  /\ (forall front cell back,
        HybridSrc.cells = front ++ cell :: back ->
        scoped_code (bound_after builtins (concat front)) cell = true)
  /\ map (scoped_code builtins) StructuredSrc.cells
     = [true; false; false; false; false; false]
  /\ map (scoped_code builtins) HybridSrc.cells
     = [true; true; true; false; false; true; false; false; false; false;
        false]
  /\ scoped_code
       ("ValueError"
          :: params_of StructuredSrc.question_ends_with_question_mark_def)
       (body_of StructuredSrc.question_ends_with_question_mark_def)
     = true
  /\ scoped_code (params_of StructuredSrc.question_ends_with_question_mark_def)
       (body_of StructuredSrc.question_ends_with_question_mark_def)
     = false.
Proof.
  split; [|split; [|repeat split]].
  - apply (scoped_cells builtins StructuredSrc.cells). reflexivity.
  - apply (scoped_cells builtins HybridSrc.cells). reflexivity.
Qed.

Lemma notebooks_scoped_witness :
  scoped_code (bound_after builtins (concat [StructuredSrc.cell_1]))
              StructuredSrc.cell_2 = true.
Proof.
  exact (proj1 notebooks_scoped [StructuredSrc.cell_1] StructuredSrc.cell_2
           [StructuredSrc.cell_3; StructuredSrc.cell_4; StructuredSrc.cell_5;
            StructuredSrc.cell_6] eq_refl).
Defined.

(** *** Templates *)

Lemma append_assoc_char (a : string) (c : ascii) (b : string) :
  ((a ++ String c "") ++ b)%string = (a ++ String c b)%string.
Proof. induction a as [|x a IH]; simpl; [reflexivity|now rewrite IH]. Qed.

(** Text without an opening brace holds no variable. *)
Lemma placeholders_text (pre rest : string) :
  count_char "{" pre = 0 ->
  placeholders (pre ++ rest) = placeholders rest.
Proof.
  unfold placeholders. induction pre as [|c pre IH]; [reflexivity|].
  cbn [count_char append placeholders_from].
  destruct (Ascii.eqb c "{"); [discriminate|]. exact IH.
Qed.

(** A name between braces is a variable. *)
Lemma placeholders_name (acc name rest : string) :
  count_char "}" name = 0 ->
  placeholders_from (Some acc) (name ++ String "}" rest)
  = (acc ++ name)%string :: placeholders rest.
Proof.
  revert acc. induction name as [|c name IH]; intros acc H.
  - cbn. now rewrite ValidatorFacts.append_empty.
  - cbn [count_char] in H. cbn [append placeholders_from].
    destruct (Ascii.eqb c "}"); [discriminate|].
    rewrite (IH _ H). now rewrite append_assoc_char.
Qed.

Lemma placeholders_braced (pre name rest : string) :
  count_char "{" pre = 0 -> count_char "}" name = 0 ->
  placeholders (pre ++ String "{" (name ++ String "}" rest))
  = name :: placeholders rest.
Proof.
  intros Hpre Hname. rewrite (placeholders_text pre _ Hpre).
  unfold placeholders at 1. cbn [placeholders_from].
  rewrite Ascii.eqb_refl. exact (placeholders_name "" name rest Hname).
Qed.

(** X8: every prompt is given the variables its template names.  In the
    structured-output notebook the variables in braces of the template are
    [format_instructions], declared as a partial variable, and [query],
    declared as the input variable, and every call of a chain built on the
    prompt passes a dictionary with the one key [query]; the template of
    [json_prompt] names [question], the key [json_chain] is streamed with;
    in the hybrid-search notebook the template names [context] and
    [question], the keys of the first stage of the pipeline. *)
Theorem prompts_wired :
  option_map placeholders structured_template
  = Some ["format_instructions"; "query"]
  /\ structured_partial_variables = Some ["format_instructions"]
  /\ structured_input_variables = Some ["query"]
  /\ (forall input, In input structured_inputs ->
                    input = structured_input_variables)
  /\ List.length structured_inputs = 3
  /\ option_map placeholders json_template = Some ["question"]
  /\ json_inputs = [Some ["question"]]
  /\ option_map placeholders hybrid_template = Some ["context"; "question"]
  /\ hybrid_prompt_input = option_map placeholders hybrid_template.
Proof.
  repeat split.
  intros input Hin. simpl in Hin.
  repeat (destruct Hin as [<-|Hin]; [reflexivity|]). contradiction.
Qed.

End WiringFacts.
